(** * Firebase App Check token verification (firebase_admin/app_check.py)

    A shallow embedding of [_AppCheckService] and [_Validators]: Python values
    are an inductive type, a [Dict[str, Any]] is a [gmap string pyval], raised
    exceptions are the [Raise] branch of [outcome], and the PyJWT library the
    service calls ([PyJWKClient.get_signing_key_from_jwt],
    [jwt.get_unverified_header], [jwt.decode]) is an interface the service is
    parametrised by.  The JWKS client is stateful (it caches keys) and
    [jwt.decode] reads the clock, so both take the state of the world; every
    call of the library is recorded in a log, which is how the order of the
    checks is stated. *)

From Stdlib Require Import ZArith String Ascii List Bool Lia.
From stdpp Require Import base option list gmap strings.

(** ** Python values *)

(** The values a token argument, a header or a claim can hold.  A float is
    kept as its IEEE-754 bit pattern: the service only ever asks whether a
    value is a string or a list. *)
#[warnings="-register-all"]
Inductive pyval : Type :=
| PNone
| PBool (b : bool)
| PInt (z : Z)
| PFloat (bits : Z)
| PStr (s : string)
| PList (items : list pyval)
| PDict (d : gmap string pyval).

Abbreviation dict := (gmap string pyval).

(** [value is None] *)
Definition is_none (v : pyval) : bool :=
  match v with PNone => true | _ => false end.

(** [isinstance(value, str)] *)
Definition isinstance_str (v : pyval) : bool :=
  match v with PStr _ => true | _ => false end.

(** [isinstance(value, list)] *)
Definition isinstance_list (v : pyval) : bool :=
  match v with PList _ => true | _ => false end.

(** [v == s] for a string literal [s]: only a string with the same characters
    is equal to it. *)
Definition py_eq_str (v : pyval) (s : string) : bool :=
  match v with PStr t => String.eqb t s | _ => false end.

(** [s in v] where the program has already established that [v] is a list
    (the [or] of line 145 does not evaluate it otherwise). *)
Definition py_in_list (s : string) (v : pyval) : bool :=
  match v with
  | PList items => existsb (fun x => py_eq_str x s) items
  | _ => false
  end.

(** [d.get(k)]: the value, or [None] when the key is absent. *)
Definition dict_get (d : dict) (k : string) : pyval :=
  default PNone (d !! k).

(** [type(v).__name__], as it appears in an [AttributeError]. *)
Definition py_type_name (v : pyval) : string :=
  match v with
  | PNone => "NoneType"
  | PBool _ => "bool"
  | PInt _ => "int"
  | PFloat _ => "float"
  | PStr _ => "str"
  | PList _ => "list"
  | PDict _ => "dict"
  end.

(** The double quote and the single quote, for messages that contain them. *)
Definition dq : string := String (ascii_of_nat 34) EmptyString.
Definition sq : string := String (ascii_of_nat 39) EmptyString.

(** ** Exceptions *)

(** The classes of [jwt.exceptions]. *)
Inductive jwt_exc : Type :=
| PyJWTError
| InvalidTokenError
| DecodeError
| InvalidSignatureError
| ExpiredSignatureError
| InvalidAudienceError
| InvalidIssuerError
| InvalidIssuedAtError
| ImmatureSignatureError
| InvalidKeyError
| InvalidAlgorithmError
| MissingRequiredClaimError
| PyJWKError
| PyJWKSetError
| PyJWKClientError
| PyJWKClientConnectionError.

#[global] Instance jwt_exc_eq_dec : EqDecision jwt_exc.
Proof. solve_decision. Defined.

(** The class itself followed by its bases inside the library, nearest first
    (its method resolution order up to [PyJWTError]). *)
Definition jwt_mro (c : jwt_exc) : list jwt_exc :=
  match c with
  | PyJWTError => [PyJWTError]
  | InvalidTokenError => [InvalidTokenError; PyJWTError]
  | DecodeError => [DecodeError; InvalidTokenError; PyJWTError]
  | InvalidSignatureError =>
      [InvalidSignatureError; DecodeError; InvalidTokenError; PyJWTError]
  | ExpiredSignatureError => [ExpiredSignatureError; InvalidTokenError; PyJWTError]
  | InvalidAudienceError => [InvalidAudienceError; InvalidTokenError; PyJWTError]
  | InvalidIssuerError => [InvalidIssuerError; InvalidTokenError; PyJWTError]
  | InvalidIssuedAtError => [InvalidIssuedAtError; InvalidTokenError; PyJWTError]
  | ImmatureSignatureError => [ImmatureSignatureError; InvalidTokenError; PyJWTError]
  | InvalidKeyError => [InvalidKeyError; PyJWTError]
  | InvalidAlgorithmError => [InvalidAlgorithmError; InvalidTokenError; PyJWTError]
  | MissingRequiredClaimError =>
      [MissingRequiredClaimError; InvalidTokenError; PyJWTError]
  | PyJWKError => [PyJWKError; PyJWTError]
  | PyJWKSetError => [PyJWKSetError; PyJWTError]
  | PyJWKClientError => [PyJWKClientError; PyJWTError]
  | PyJWKClientConnectionError =>
      [PyJWKClientConnectionError; PyJWKClientError; PyJWTError]
  end.

(** A raised exception: the built-in classes the module raises or runs into,
    and the library's classes, each with its message. *)
Inductive exn : Type :=
| ValueError (msg : string)
| KeyError (key : string)
| AttributeError (msg : string)
| TypeError (msg : string)
| JwtError (c : jwt_exc) (msg : string).

(** [isinstance(e, cls)] for a class [cls] of the library, which is what an
    [except jwt.cls] clause tests. *)
Definition isinstance (e : exn) (cls : jwt_exc) : bool :=
  match e with
  | JwtError c _ => bool_decide (cls ∈ jwt_mro c)
  | _ => false
  end.

(** [str(e)] *)
Definition exn_str (e : exn) : string :=
  match e with
  | ValueError msg | AttributeError msg | TypeError msg | JwtError _ msg => msg
  | KeyError k => sq +:+ k +:+ sq
  end.

(** The result of running a piece of Python: a value or a raised exception. *)
Inductive outcome (A : Type) : Type :=
| Ret (a : A)
| Raise (e : exn).
Arguments Ret {A} a.
Arguments Raise {A} e.

(** ** The PyJWT library, as the service sees it *)

(** [PyJWK]: the object [get_signing_key_from_jwt] returns; the service reads
    its [key] attribute. *)
Record PyJWK (K : Type) : Type := { key : K }.
Arguments key {K} _.

(** [W] is the state of the world outside the verifier (the clock, the key
    cache of the JWKS client, the remote key set); [K] is the type of key
    material.  Fetching a key may change the world; decoding reads it. *)
Class PyJWT (W K : Type) : Type := {
  (** [PyJWKClient.get_signing_key_from_jwt(token)] *)
  get_signing_key_from_jwt : W → pyval → outcome (PyJWK K) * W;
  (** [jwt.get_unverified_header(token)] *)
  get_unverified_header : pyval → outcome dict;
  (** [jwt.decode(token, key, algorithms=..., audience=...)] *)
  decode : W → pyval → K → list string → string → outcome dict;
}.

(** A call of the library, as logged. *)
Inductive call (K : Type) : Type :=
| CallGetSigningKey (token : pyval)
| CallGetUnverifiedHeader (token : pyval)
| CallDecode (token : pyval) (signing_key : K) (algorithms : list string)
    (audience : string).
Arguments CallGetSigningKey {K} token.
Arguments CallGetUnverifiedHeader {K} token.
Arguments CallDecode {K} token signing_key algorithms audience.

(** ** Computations: state of the world, call log, exceptions *)

Definition M (W K A : Type) : Type :=
  W * list (call K) → outcome A * (W * list (call K)).

Section Monad.
Context {W K : Type}.

Definition ret {A} (a : A) : M W K A := fun st => (Ret a, st).

Definition bind {A B} (m : M W K A) (f : A → M W K B) : M W K B :=
  fun st =>
    match m st with
    | (Ret a, st') => f a st'
    | (Raise e, st') => (Raise e, st')
    end.

(** [raise e] *)
Definition raise {A} (e : exn) : M W K A := fun st => (Raise e, st).

(** A pure step that may raise. *)
Definition lift {A} (o : outcome A) : M W K A := fun st => (o, st).

(** [try: body except ...]: [handler e] is the body of the first clause
    that matches [e], or [None] when no clause does and [e] propagates. *)
Definition try_except {A} (body : M W K A) (handler : exn → option (M W K A))
  : M W K A :=
  fun st =>
    match body st with
    | (Ret a, st') => (Ret a, st')
    | (Raise e, st') =>
        match handler e with
        | Some h => h st'
        | None => (Raise e, st')
        end
    end.
End Monad.

#[global] Instance M_ret {W K} : MRet (M W K) := @ret W K.
#[global] Instance M_bind {W K} : MBind (M W K) := fun A B f m => bind m f.

(** What a caller observes of a run. *)
Definition result {W K A} (r : outcome A * (W * list (call K))) : outcome A := r.1.
Definition world_after {W K A} (r : outcome A * (W * list (call K))) : W := r.2.1.
Definition calls {W K A} (r : outcome A * (W * list (call K))) : list (call K) := r.2.2.

(** ** [class _Validators] *)

Module _Validators.
Section WithStr.
(** The built-in [str()], which [format] and f-strings apply to a value. *)
Variable py_str : pyval → string.

(** [check_string(cls, label, value)] *)
Definition check_string (label : string) (value : pyval) : outcome unit :=
  if is_none value then
    Raise (ValueError (label +:+ " " +:+ dq +:+ py_str value +:+ dq
                         +:+ " must be a non-empty string."))
  else if negb (isinstance_str value) then
    Raise (ValueError (label +:+ " " +:+ dq +:+ py_str value +:+ dq
                         +:+ " must be a string."))
  else Ret tt.
End WithStr.
End _Validators.

(** ** [class _AppCheckService] *)

(** [firebase_admin.App], of which the service reads [project_id]. *)
Record App : Type := { project_id : option string }.

Module _AppCheckService.

Definition _APP_CHECK_ISSUER : string := "https://firebaseappcheck.googleapis.com/".
Definition _JWKS_URL : string := "https://firebaseappcheck.googleapis.com/v1/jwks".

(** The attributes [__init__] sets.  The JWKS client it constructs is the
    [PyJWT] instance the methods are parametrised by. *)
Record self_ : Type := {
  _project_id : string;
  _scoped_project_id : string;
}.

(** [not app.project_id]: the attribute is [None] or the empty string. *)
Definition falsy (p : option string) : bool :=
  match p with
  | None => true
  | Some s => String.eqb s EmptyString
  end.

(** [__init__(self, app)] *)
Definition __init__ (app : App) : outcome self_ :=
  if falsy (project_id app) then
    Raise (ValueError
             ("A project ID must be specified to access the App Check "
              +:+ "service. Either set the projectId option, use service "
              +:+ "account credentials, or set the "
              +:+ "GOOGLE_CLOUD_PROJECT environment variable."))
  else
    let p := default EmptyString (project_id app) in
    Ret {| _project_id := p; _scoped_project_id := "projects/" +:+ p |}.

Section WithJwt.
Context {W K : Type} `{jwt : !PyJWT W K}.
Variable py_str : pyval → string.

(** The three calls of the library, each recorded in the log. *)
Definition call_get_signing_key_from_jwt (token : pyval) : M W K (PyJWK K) :=
  fun '(w, log) =>
    let '(r, w') := get_signing_key_from_jwt w token in
    (r, (w', log ++ [CallGetSigningKey token])).

Definition call_get_unverified_header (token : pyval) : M W K dict :=
  fun '(w, log) =>
    (get_unverified_header token, (w, log ++ [CallGetUnverifiedHeader token])).

Definition call_decode (token : pyval) (signing_key : K)
    (algorithms : list string) (audience : string) : M W K dict :=
  fun '(w, log) =>
    (decode w token signing_key algorithms audience,
     (w, log ++ [CallDecode token signing_key algorithms audience])).

(** [_has_valid_token_headers(self, headers)] *)
Definition _has_valid_token_headers (headers : dict) : outcome unit :=
  if negb (py_eq_str (dict_get headers "typ") "JWT") then
    Raise (ValueError "The provided App Check token has an incorrect type header")
  else
    let algorithm := dict_get headers "alg" in
    if negb (py_eq_str algorithm "RS256") then
      Raise (ValueError
               ("The provided App Check token has an incorrect alg header. "
                +:+ "Expected RS256 but got " +:+ py_str algorithm +:+ "."))
    else Ret tt.

(** The [except] clauses of the [try] around [jwt.decode], in order. *)
Definition decode_handler (self : self_) (e : exn) : option (M W K dict) :=
  if isinstance e InvalidSignatureError then
    Some (raise (ValueError
                   "The provided App Check token has an invalid signature."))
  else if isinstance e InvalidAudienceError then
    Some (raise (ValueError
                   ("The provided App Check token has an incorrect " +:+ dq
                    +:+ "aud" +:+ dq +:+ " (audience) claim. "
                    +:+ "Expected payload to include "
                    +:+ _scoped_project_id self +:+ ".")))
  else if isinstance e InvalidIssuerError then
    Some (raise (ValueError
                   ("The provided App Check token has an incorrect " +:+ dq
                    +:+ "iss" +:+ dq +:+ " (issuer) claim. "
                    +:+ "Expected claim to include " +:+ _APP_CHECK_ISSUER)))
  else if isinstance e ExpiredSignatureError then
    Some (raise (ValueError "The provided App Check token has expired."))
  else if isinstance e InvalidTokenError then
    Some (raise (ValueError
                   ("Decoding App Check token failed. Error: " +:+ exn_str e)))
  else None.

(** [payload['iss']]: [KeyError] when the claim is absent. *)
Definition getitem (d : dict) (k : string) : outcome pyval :=
  match d !! k with
  | Some v => Ret v
  | None => Raise (KeyError k)
  end.

(** [v.startswith(prefix)]: only a string has the method. *)
Definition startswith (v : pyval) (prefix : string) : outcome bool :=
  match v with
  | PStr s => Ret (String.prefix prefix s)
  | _ =>
      Raise (AttributeError
               (sq +:+ py_type_name v +:+ sq +:+ " object has no attribute "
                +:+ sq +:+ "startswith" +:+ sq))
  end.

(** [_decode_and_verify(self, token, signing_key)] *)
Definition _decode_and_verify (self : self_) (token : pyval) (signing_key : K)
  : M W K dict :=
  payload ← try_except
    (call_decode token signing_key ["RS256"%string] (_scoped_project_id self))
    (decode_handler self);
  let audience := dict_get payload "aud" in
  if negb (isinstance_list audience)
     || negb (py_in_list (_scoped_project_id self) audience) then
    raise (ValueError
             ("Firebase App Check token has incorrect " +:+ dq +:+ "aud" +:+ dq
              +:+ " (audience) claim."))
  else
    iss ← lift (getitem payload "iss");
    has_prefix ← lift (startswith iss _APP_CHECK_ISSUER);
    if negb has_prefix then
      raise (ValueError
               ("Token does not contain the correct " +:+ dq +:+ "iss" +:+ dq
                +:+ " (issuer)."))
    else
      lift (_Validators.check_string py_str
              ("The provided App Check token " +:+ dq +:+ "sub" +:+ dq
               +:+ " (subject) claim")
              (dict_get payload "sub"));;
      mret payload.

(** The [except (jwt.InvalidTokenError, jwt.DecodeError)] clause of
    [verify_token]. *)
Definition verify_handler (e : exn) : option (M W K dict) :=
  if isinstance e InvalidTokenError || isinstance e DecodeError then
    Some (raise (ValueError
                   ("Verifying App Check token failed. Error: " +:+ exn_str e)))
  else None.

(** [verify_token(self, token)] *)
Definition verify_token (self : self_) (token : pyval) : M W K dict :=
  lift (_Validators.check_string py_str "app check token" token);;
  verified_claims ← try_except
    (signing_key ← call_get_signing_key_from_jwt token;
     headers ← call_get_unverified_header token;
     lift (_has_valid_token_headers headers);;
     _decode_and_verify self token (key signing_key))
    verify_handler;
  mret (<["app_id" := dict_get verified_claims "sub"]> verified_claims).
End WithJwt.
End _AppCheckService.

(** ** A stand-in for the library, to run the service on concrete tokens

    Compact token strings are looked up in a table instead of being parsed;
    a key is a number, and a token is signed by the key recorded with it.
    The checks and messages follow PyJWT: a token that is not in the table
    does not decode, an unknown key id is a [PyJWKClientError], and [decode]
    verifies the algorithm, the signature, [exp] and [aud] in that order (a
    scalar [aud] is compared as a one-element list). *)

Module Fake.

Record token : Type := {
  header : dict;
  payload : dict;
  signed_with : Z;
}.

Record world : Type := {
  now : Z;
  jwks : gmap string Z;
  fetched : nat;
}.

Definition str (v : pyval) : string :=
  match v with
  | PNone => "None"
  | PBool true => "True"
  | PBool false => "False"
  | PStr s => s
  | PInt Z0 => "0"
  | _ => "<object>"
  end.

Section WithTable.
Variable table : gmap string token.
(** Whether [decode] checks the audience itself. *)
Variable checks_audience : bool.

Definition parse (tok : pyval) : outcome token :=
  match tok with
  | PStr s =>
      match table !! s with
      | Some t => Ret t
      | None => Raise (JwtError DecodeError "Not enough segments")
      end
  | _ => Raise (JwtError DecodeError "Invalid token type")
  end.

Definition fake_get_signing_key_from_jwt (w : world) (tok : pyval)
  : outcome (PyJWK Z) * world :=
  match parse tok with
  | Raise e => (Raise e, w)
  | Ret t =>
      let w' := {| now := now w; jwks := jwks w; fetched := S (fetched w) |} in
      match dict_get (header t) "kid" with
      | PStr kid =>
          match jwks w !! kid with
          | Some k => (Ret {| key := k |}, w')
          | None =>
              (Raise (JwtError PyJWKClientError
                        ("Unable to find a signing key that matches: "
                         +:+ dq +:+ kid +:+ dq)),
               w')
          end
      | _ =>
          (Raise (JwtError PyJWKClientError
                    "Unable to find a signing key that matches: None"),
           w')
      end
  end.

Definition fake_get_unverified_header (tok : pyval) : outcome dict :=
  match parse tok with
  | Raise e => Raise e
  | Ret t => Ret (header t)
  end.

Definition audience_matches (aud : pyval) (expected : string) : bool :=
  match aud with
  | PStr s => String.eqb s expected
  | PList _ => py_in_list expected aud
  | _ => false
  end.

Definition expired (w : world) (p : dict) : bool :=
  match p !! "exp" with
  | Some (PInt e) => (e <=? now w)%Z
  | _ => false
  end.

Definition fake_decode (w : world) (tok : pyval) (k : Z)
    (algorithms : list string) (audience : string) : outcome dict :=
  match parse tok with
  | Raise e => Raise e
  | Ret t =>
      if negb (existsb (py_eq_str (dict_get (header t) "alg")) algorithms) then
        Raise (JwtError InvalidAlgorithmError "The specified alg value is not allowed")
      else if negb (signed_with t =? k)%Z then
        Raise (JwtError InvalidSignatureError "Signature verification failed")
      else if expired w (payload t) then
        Raise (JwtError ExpiredSignatureError "Signature has expired")
      else if checks_audience
              && negb (audience_matches (dict_get (payload t) "aud") audience) then
        Raise (JwtError InvalidAudienceError "Audience doesn't match")
      else Ret (payload t)
  end.

#[export] Instance jwt : PyJWT world Z := {|
  get_signing_key_from_jwt := fake_get_signing_key_from_jwt;
  get_unverified_header := fake_get_unverified_header;
  decode := fake_decode;
|}.
End WithTable.

(** The tokens of the examples. *)

Definition hdr (typ alg : string) : dict :=
  {[ "typ" := PStr typ; "alg" := PStr alg; "kid" := PStr "key-1" ]}.

Definition claims (aud : pyval) (sub : list pyval) (exp : Z) : dict :=
  list_to_map
    ([("aud"%string, aud);
      ("iss"%string, PStr "https://firebaseappcheck.googleapis.com/proj-x");
      ("exp"%string, PInt exp)]
     ++ map (fun v => ("sub"%string, v)) sub).

Definition good_claims : dict :=
  claims (PList [PStr "projects/proj-x"]) [PStr "1:1234:android:abcd"] 2000.

Definition table : gmap string token :=
  {[ "tok.good" := {| header := hdr "JWT" "RS256"; payload := good_claims;
                      signed_with := 11 |};
     "tok.bare-audience" :=
       {| header := hdr "JWT" "RS256";
          payload := claims (PList [PStr "proj-x"]) [PStr "1:1234:android:abcd"] 2000;
          signed_with := 11 |};
     "tok.scalar-audience" :=
       {| header := hdr "JWT" "RS256";
          payload := claims (PStr "projects/proj-x") [PStr "1:1234:android:abcd"] 2000;
          signed_with := 11 |};
     "tok.other-audience" :=
       {| header := hdr "JWT" "RS256";
          payload := claims (PList [PStr "projects/other"]) [PStr "1:1234:android:abcd"] 2000;
          signed_with := 11 |};
     "tok.unknown-key" :=
       {| header := <["kid" := PStr "key-9"]> (hdr "JWT" "RS256");
          payload := good_claims; signed_with := 11 |};
     "tok.empty-subject" :=
       {| header := hdr "JWT" "RS256";
          payload := claims (PList [PStr "projects/proj-x"]) [PStr EmptyString] 2000;
          signed_with := 11 |};
     "tok.no-subject" :=
       {| header := hdr "JWT" "RS256";
          payload := claims (PList [PStr "projects/proj-x"]) [] 2000;
          signed_with := 11 |};
     "tok.forged" := {| header := hdr "JWT" "RS256"; payload := good_claims;
                        signed_with := 99 |};
     "tok.expired" :=
       {| header := hdr "JWT" "RS256";
          payload := claims (PList [PStr "projects/proj-x"]) [PStr "1:1234:android:abcd"] 10;
          signed_with := 11 |};
     "tok.hs256" := {| header := hdr "JWT" "HS256"; payload := good_claims;
                       signed_with := 11 |};
     "tok.alg-none" := {| header := hdr "JWT" "none"; payload := good_claims;
                          signed_with := 11 |};
     "tok.typ-at+jwt" := {| header := hdr "at+jwt" "RS256"; payload := good_claims;
                            signed_with := 11 |};
     "tok.with-app-id" :=
       {| header := hdr "JWT" "RS256";
          payload := <["app_id" := PStr "forged-app"]> good_claims;
          signed_with := 11 |} ]}.

Definition world0 : world :=
  {| now := 1000; jwks := {[ "key-1" := 11%Z ]}; fetched := 0 |}.

(** The service of an app whose project is [proj-x]. *)
Definition proj_x : _AppCheckService.self_ :=
  {| _AppCheckService._project_id := "proj-x";
     _AppCheckService._scoped_project_id := "projects/proj-x" |}.

(** [verify_token] of that service against the stand-in, from [world0] with
    an empty log. *)
Definition verify (checks_audience : bool) (token : pyval)
  : outcome dict * (world * list (call Z)) :=
  _AppCheckService.verify_token (jwt := jwt table checks_audience) str
    proj_x token (world0, []).

End Fake.

(** ** A library that answers the same whatever the token

    [fetched], [header] and [decoded] are what the three calls return; the
    world counts the key fetches. *)

Module Stub.
Section WithAnswers.
Variable fetched : outcome (PyJWK Z).
Variable header : outcome dict.
Variable decoded : outcome dict.

#[export] Instance jwt : PyJWT nat Z := {|
  get_signing_key_from_jwt := fun w _ => (fetched, S w);
  get_unverified_header := fun _ => header;
  decode := fun _ _ _ _ _ => decoded;
|}.
End WithAnswers.

(** A header the service accepts, and the key every example is signed with. *)
Definition jwt_rs256 : dict := {[ "typ" := PStr "JWT"; "alg" := PStr "RS256" ]}.
Definition the_key : PyJWK Z := {| key := 7%Z |}.

(** [verify_token] of the service of project [proj-x] on the token [t], when
    the key is fetched, the header is accepted and [jwt.decode] answers
    [decoded]. *)
Definition verify_decoded (decoded : outcome dict)
  : outcome dict * (nat * list (call Z)) :=
  _AppCheckService.verify_token (jwt := jwt (Ret the_key) (Ret jwt_rs256) decoded)
    Fake.str Fake.proj_x (PStr "t") (0, []).
End Stub.

(** * The validators of the provider and user modules *)

(** ** Built-ins they use *)

(** [bool(v)], the truth value of [v]: [None], [False], zero, and the empty
    string, list and dict are false.  The two float zeros are the bit
    patterns [0] and [2^63]. *)
Definition py_bool (v : pyval) : bool :=
  match v with
  | PNone => false
  | PBool b => b
  | PInt z => negb (z =? 0)%Z
  | PFloat bits => negb ((bits =? 0)%Z || (bits =? 2 ^ 63)%Z)
  | PStr s => negb (String.eqb s EmptyString)
  | PList items => match items with [] => false | _ :: _ => true end
  | PDict d => negb (bool_decide (size d = 0))
  end.

(** [isinstance(v, bool)] *)
Definition isinstance_bool (v : pyval) : bool :=
  match v with PBool _ => true | _ => false end.

(** Sequencing of steps that may raise. *)
#[global] Instance outcome_ret : MRet outcome := @Ret.
#[global] Instance outcome_bind : MBind outcome :=
  fun A B f m => match m with Ret a => f a | Raise e => Raise e end.

(** [v[k]] for a string [k]: only a dict can be indexed by a string. *)
Definition py_getitem (v : pyval) (k : string) : outcome pyval :=
  match v with
  | PDict d => _AppCheckService.getitem d k
  | PStr _ => Raise (TypeError "string indices must be integers")
  | PList _ => Raise (TypeError "list indices must be integers or slices, not str")
  | _ => Raise (TypeError (sq +:+ py_type_name v +:+ sq
                           +:+ " object is not subscriptable"))
  end.

(** [s.split(sep)] for a separator of one character: the pieces between the
    occurrences of [sep], empty pieces included; never the empty list. *)
Fixpoint split_on (sep : ascii) (s : string) : list string :=
  match s with
  | EmptyString => [EmptyString]
  | String c rest =>
      if Ascii.eqb c sep then EmptyString :: split_on sep rest
      else match split_on sep rest with
           | piece :: pieces => String c piece :: pieces
           | [] => [String c EmptyString]
           end
  end.

(** [sep.join(pieces)], in which the properties of [split_on] are stated. *)
Fixpoint join_with (sep : ascii) (pieces : list string) : string :=
  match pieces with
  | [] => EmptyString
  | [piece] => piece
  | piece :: pieces => piece +:+ String sep (join_with sep pieces)
  end.

(** [v.split(sep)]: only a string has the method. *)
Definition py_split (v : pyval) (sep : ascii) : outcome (list string) :=
  match v with
  | PStr s => Ret (split_on sep s)
  | _ =>
      Raise (AttributeError
               (sq +:+ py_type_name v +:+ sq +:+ " object has no attribute "
                +:+ sq +:+ "split" +:+ sq))
  end.

(** ** The HTTP client of the auth modules

    The client ([_http_client.HttpClient]) and [_auth_utils] are not among
    the sources: the two methods the modules call, and
    [_auth_utils.handle_auth_backend_error], are an interface.  A call gets
    the state of the server and answers with a body or raises; every request
    sent is logged. *)

(** What a call of these modules can raise: a built-in exception, a
    [requests.exceptions.RequestException], or the error that
    [handle_auth_backend_error] makes of one. *)
Inductive raised : Type :=
| PyExn (e : exn)
| RequestException (detail : string)
| AuthError (code message : string).

Inductive res (A : Type) : Type :=
| Ok (a : A)
| Err (r : raised).
Arguments Ok {A} a.
Arguments Err {A} r.

(** [http_client.body(method, url, **kwargs)] *)
Record request : Type := {
  method : string;
  request_url : string;
  kwargs : dict;
}.

(** [W] is the state of the server, [R] the type of [requests.Response]. *)
Class AuthBackend (W R : Type) : Type := {
  body : W → request → res dict * W;
  body_and_response : W → request → res (dict * R) * W;
  handle_auth_backend_error : string → raised;
}.

Definition HM (W A : Type) : Type :=
  W * list request → res A * (W * list request).

#[global] Instance HM_ret {W} : MRet (HM W) := fun A a st => (Ok a, st).
#[global] Instance HM_bind {W} : MBind (HM W) :=
  fun A B f m st =>
    match m st with
    | (Ok a, st') => f a st'
    | (Err r, st') => (Err r, st')
    end.

(** [raise ValueError(msg)] *)
Definition raise_ValueError {W A} (msg : string) : HM W A :=
  fun st => (Err (PyExn (ValueError msg)), st).

(** A step that sends nothing: it returns, or raises a built-in exception. *)
Definition of_outcome {W A} (o : outcome A) : HM W A :=
  fun st =>
    match o with
    | Ret a => (Ok a, st)
    | Raise e => (Err (PyExn e), st)
    end.

(** [isinstance(v, int)]: [bool] is a subclass of [int]. *)
Definition isinstance_int (v : pyval) : bool :=
  match v with PInt _ | PBool _ => true | _ => false end.

(** The number an [int] compares as: [True] is [1] and [False] is [0]. *)
Definition int_value (v : pyval) : Z :=
  match v with
  | PInt z => z
  | PBool true => 1
  | _ => 0
  end.

(** [x or default] for an optional string: [None] and the empty string give
    the default. *)
Definition or_default (x : option string) (default : string) : string :=
  match x with
  | Some s => if String.eqb s EmptyString then default else s
  | None => default
  end.

(** The base URL both clients compute in [__init__]: the prefix, the project
    and, when a tenant is given, the tenant. *)
Definition make_base_url (default_prefix project_id : string)
    (tenant_id url_override : option string) : string :=
  let url_prefix := or_default url_override default_prefix in
  let base_url := url_prefix +:+ "/projects/" +:+ project_id in
  match tenant_id with
  | Some t => if String.eqb t EmptyString then base_url
              else base_url +:+ "/tenants/" +:+ t
  | None => base_url
  end.

(** ** [_auth_providers]: provider configs and their validators *)

Module _auth_providers.

(** [ProviderConfig], with [OIDCProviderConfig] and [SAMLProviderConfig]: the
    response of the server, kept as it came. *)
Record ProviderConfig : Type := { _data : dict }.

(** [ProviderConfig.provider_id]: the part of [name] after its last slash.
    [split] never returns the empty list, so [[-1]] is its last piece. *)
Definition provider_id (self : ProviderConfig) : outcome string :=
  name ← _AppCheckService.getitem (_data self) "name";
  pieces ← py_split name "/"%char;
  mret (List.last pieces EmptyString).

(** [c['x509Certificate'] for c in certs].  A string iterates over its
    characters and a dict over its keys, all of them strings, so indexing the
    first one raises; other values cannot be iterated. *)
Definition certificates_of (certs : pyval) : outcome (list pyval) :=
  match certs with
  | PList items => mapM (fun c => py_getitem c "x509Certificate") items
  | PStr s =>
      if String.eqb s EmptyString then Ret []
      else Raise (TypeError "string indices must be integers")
  | PDict d =>
      if bool_decide (size d = 0) then Ret []
      else Raise (TypeError "string indices must be integers")
  | _ => Raise (TypeError (sq +:+ py_type_name certs +:+ sq
                           +:+ " object is not iterable"))
  end.

(** [SAMLProviderConfig.x509_certificates] *)
Definition x509_certificates (self : ProviderConfig) : outcome pyval :=
  idp_config ← _AppCheckService.getitem (_data self) "idpConfig";
  certs ← py_getitem idp_config "idpCertificates";
  values ← certificates_of certs;
  mret (PList values).

Section WithStr.
Variable py_str : pyval → string.

(** [_validate_oidc_provider_id(provider_id)] *)
Definition _validate_oidc_provider_id (provider_id : pyval) : outcome pyval :=
  if negb (isinstance_str provider_id) then
    Raise (ValueError
             ("Invalid OIDC provider ID: " +:+ py_str provider_id
              +:+ ". Provider ID must be a non-empty string."))
  else
    has_prefix ← _AppCheckService.startswith provider_id "oidc.";
    if negb has_prefix then
      Raise (ValueError ("Invalid OIDC provider ID: " +:+ py_str provider_id +:+ "."))
    else Ret provider_id.

(** [_validate_saml_provider_id(provider_id)] *)
Definition _validate_saml_provider_id (provider_id : pyval) : outcome pyval :=
  if negb (isinstance_str provider_id) then
    Raise (ValueError
             ("Invalid SAML provider ID: " +:+ py_str provider_id
              +:+ ". Provider ID must be a non-empty string."))
  else
    has_prefix ← _AppCheckService.startswith provider_id "saml.";
    if negb has_prefix then
      Raise (ValueError ("Invalid SAML provider ID: " +:+ py_str provider_id +:+ "."))
    else Ret provider_id.

(** [_validate_non_empty_string(value, label)] *)
Definition _validate_non_empty_string (value : pyval) (label : string)
  : outcome pyval :=
  if negb (isinstance_str value) then
    Raise (ValueError ("Invalid type for " +:+ label +:+ ": " +:+ py_str value +:+ "."))
  else if negb (py_bool value) then
    Raise (ValueError (label +:+ " must not be empty."))
  else Ret value.
End WithStr.

Section WithUrlparse.
Variable py_str : pyval → string.
(** [parse.urlparse(url).netloc], or what [urlparse] raises. *)
Variable urlparse_netloc : pyval → outcome pyval.

(** [_validate_url(url, label)] *)
Definition _validate_url (url : pyval) (label : string) : outcome pyval :=
  if negb (isinstance_str url) || negb (py_bool url) then
    Raise (ValueError
             ("Invalid photo URL: " +:+ dq +:+ py_str url +:+ dq +:+ ". " +:+ label
              +:+ " must be a non-empty string."))
  else
    let malformed :=
      ValueError ("Malformed " +:+ label +:+ ": " +:+ dq +:+ py_str url +:+ dq
                  +:+ ".") in
    match (netloc ← urlparse_netloc url;
           if negb (py_bool netloc) then Raise malformed else Ret url) with
    | Ret url => Ret url
    | Raise _ => Raise malformed
    end.
End WithUrlparse.

(** The elements of a list. *)
Definition list_items (v : pyval) : list pyval :=
  match v with PList items => items | _ => [] end.

(** [{'x509Certificate': cert}] *)
Definition certificate_entry (cert : pyval) : pyval :=
  PDict {[ "x509Certificate" := cert ]}.

(** [_validate_x509_certificates(x509_certificates)].  Each entry of the list
    handed to [all] is [False] or the certificate itself, which is true when
    it is not empty. *)
Definition _validate_x509_certificates (x509_certificates : pyval) : outcome pyval :=
  if negb (isinstance_list x509_certificates) || negb (py_bool x509_certificates) then
    Raise (ValueError "x509_certificates must be a non-empty list.")
  else if negb (forallb (fun cert => isinstance_str cert && py_bool cert)
                  (list_items x509_certificates)) then
    Raise (ValueError "x509_certificates must only contain non-empty strings.")
  else
    Ret (PList (map certificate_entry (list_items x509_certificates))).


Definition MAX_LIST_CONFIGS_RESULTS : Z := 100.
Definition PROVIDER_CONFIG_URL : string := "https://identitytoolkit.googleapis.com/v2".

(** [ProviderConfigClient]: the attribute [__init__] computes. *)
Record ProviderConfigClient : Type := { base_url : string }.

(** [ProviderConfigClient.__init__(self, http_client, project_id, tenant_id,
    url_override)] *)
Definition ProviderConfigClient_init (project_id : string)
    (tenant_id url_override : option string) : ProviderConfigClient :=
  {| base_url := make_base_url PROVIDER_CONFIG_URL project_id tenant_id url_override |}.

(** [ListProviderConfigsPage] *)
Record ListProviderConfigsPage (W : Type) : Type := {
  _download : pyval → pyval → HM W dict;
  _max_results : pyval;
  _current : dict;
}.
Arguments _download {W} _.
Arguments _max_results {W} _.
Arguments _current {W} _.

Section WithBackend.
Context {W R : Type} `{backend : !AuthBackend W R}.
Variable py_str : pyval → string.

(** [_make_request(self, method, path, **kwargs)] *)
Definition _make_request (self : ProviderConfigClient) (method path : string)
    (kwargs : dict) : HM W dict :=
  fun '(w, log) =>
    let url := base_url self +:+ path in
    let sent := {| method := method; request_url := url; kwargs := kwargs |} in
    match body w sent with
    | (Err (RequestException error), w') =>
        (Err (handle_auth_backend_error error), (w', log ++ [sent]))
    | (answer, w') => (answer, (w', log ++ [sent]))
    end.

(** [_fetch_provider_configs(self, path, page_token, max_results)] *)
Definition _fetch_provider_configs (self : ProviderConfigClient) (path : string)
    (page_token max_results : pyval) : HM W dict :=
  if negb (is_none page_token)
     && (negb (isinstance_str page_token) || negb (py_bool page_token)) then
    raise_ValueError "Page token must be a non-empty string."
  else if negb (isinstance_int max_results) then
    raise_ValueError "Max results must be an integer."
  else if (int_value max_results <? 1)%Z
          || (int_value max_results >? MAX_LIST_CONFIGS_RESULTS)%Z then
    raise_ValueError
      ("Max results must be a positive integer less than or equal to "
       +:+ "100" +:+ ".")
  else
    let params := "pageSize=" +:+ py_str max_results in
    let params :=
      if py_bool page_token then params +:+ "&pageToken=" +:+ py_str page_token
      else params in
    _make_request self "get" path {[ "params" := PStr params ]}.

(** [_fetch_oidc_provider_configs(self, page_token, max_results)] *)
Definition _fetch_oidc_provider_configs (self : ProviderConfigClient)
    (page_token max_results : pyval) : HM W dict :=
  _fetch_provider_configs self "/oauthIdpConfigs" page_token max_results.

(** [_fetch_saml_provider_configs(self, page_token, max_results)] *)
Definition _fetch_saml_provider_configs (self : ProviderConfigClient)
    (page_token max_results : pyval) : HM W dict :=
  _fetch_provider_configs self "/inboundSamlConfigs" page_token max_results.

(** [ListProviderConfigsPage.__init__(self, download, page_token,
    max_results)] *)
Definition ListProviderConfigsPage_init (download : pyval → pyval → HM W dict)
    (page_token max_results : pyval) : HM W (ListProviderConfigsPage W) :=
  current ← download page_token max_results;
  mret {| _download := download; _max_results := max_results;
          _current := current |}.

(** [next_page_token]: [self._current.get('nextPageToken', '')] *)
Definition next_page_token (self : ListProviderConfigsPage W) : pyval :=
  default (PStr EmptyString) (_current self !! "nextPageToken").

(** [has_next_page] *)
Definition has_next_page (self : ListProviderConfigsPage W) : bool :=
  py_bool (next_page_token self).

(** [get_next_page(self)]: the next page, or [None]. *)
Definition get_next_page (self : ListProviderConfigsPage W)
  : HM W (option (ListProviderConfigsPage W)) :=
  if has_next_page self then
    page ← ListProviderConfigsPage_init (_download self) (next_page_token self)
              (_max_results self);
    mret (Some page)
  else mret None.

(** [list_oidc_provider_configs(self, page_token, max_results)] *)
Definition list_oidc_provider_configs (self : ProviderConfigClient)
    (page_token max_results : pyval) : HM W (ListProviderConfigsPage W) :=
  ListProviderConfigsPage_init (_fetch_oidc_provider_configs self)
    page_token max_results.

(** [list_saml_provider_configs(self, page_token, max_results)] *)
Definition list_saml_provider_configs (self : ProviderConfigClient)
    (page_token max_results : pyval) : HM W (ListProviderConfigsPage W) :=
  ListProviderConfigsPage_init (_fetch_saml_provider_configs self)
    page_token max_results.

(** [get_oidc_provider_config(self, provider_id)] *)
Definition get_oidc_provider_config (self : ProviderConfigClient)
    (provider_id : pyval) : HM W ProviderConfig :=
  _ ← of_outcome (_validate_oidc_provider_id py_str provider_id);
  body ← _make_request self "get" ("/oauthIdpConfigs/" +:+ py_str provider_id) ∅;
  mret {| _data := body |}.

(** [delete_oidc_provider_config(self, provider_id)] *)
Definition delete_oidc_provider_config (self : ProviderConfigClient)
    (provider_id : pyval) : HM W unit :=
  _ ← of_outcome (_validate_oidc_provider_id py_str provider_id);
  _ ← _make_request self "delete" ("/oauthIdpConfigs/" +:+ py_str provider_id) ∅;
  mret tt.

(** [get_saml_provider_config(self, provider_id)] *)
Definition get_saml_provider_config (self : ProviderConfigClient)
    (provider_id : pyval) : HM W ProviderConfig :=
  _ ← of_outcome (_validate_saml_provider_id py_str provider_id);
  body ← _make_request self "get" ("/inboundSamlConfigs/" +:+ py_str provider_id) ∅;
  mret {| _data := body |}.

(** [delete_saml_provider_config(self, provider_id)] *)
Definition delete_saml_provider_config (self : ProviderConfigClient)
    (provider_id : pyval) : HM W unit :=
  _ ← of_outcome (_validate_saml_provider_id py_str provider_id);
  _ ← _make_request self "delete" ("/inboundSamlConfigs/" +:+ py_str provider_id) ∅;
  mret tt.
End WithBackend.

End _auth_providers.

(** ** [_user_mgt]: the settings of an email action link *)

Module _user_mgt.

(** [ActionCodeSettings]: the constructor stores its arguments as given. *)
Record ActionCodeSettings : Type := {
  url : pyval;
  handle_code_in_app : pyval;
  dynamic_link_domain : pyval;
  ios_bundle_id : pyval;
  android_package_name : pyval;
  android_install_app : pyval;
  android_minimum_version : pyval;
}.

Section WithBuiltins.
Variable py_str : pyval → string.
(** [parse.urlparse(url).netloc], or what [urlparse] raises. *)
Variable urlparse_netloc : pyval → outcome pyval.

(** One optional setting: left out when [None], rejected when it is not of
    the expected type, stored under [key] otherwise. *)
Definition optional_setting (name key : string) (of_type : pyval → bool)
    (value : pyval) (parameters : dict) : outcome dict :=
  if negb (is_none value) then
    if negb (of_type value) then
      Raise (ValueError ("Invalid value provided for " +:+ name +:+ ": "
                         +:+ py_str value))
    else Ret (<[key := value]> parameters)
  else Ret parameters.

(** [encode_action_code_settings(settings)] *)
Definition encode_action_code_settings (settings : ActionCodeSettings)
  : outcome dict :=
  let parameters : dict := ∅ in
  if negb (py_bool (url settings)) then
    Raise (ValueError "Dynamic action links url is mandatory")
  else
    let malformed :=
      ValueError ("Malformed dynamic action links url: " +:+ dq
                  +:+ py_str (url settings) +:+ dq +:+ ".") in
    parameters ←
      match (netloc ← urlparse_netloc (url settings);
             if negb (py_bool netloc) then Raise malformed
             else Ret (<["continueUrl" := url settings]> parameters)) with
      | Ret parameters => Ret parameters
      | Raise _ => Raise malformed
      end;
    parameters ← optional_setting "handle_code_in_app" "canHandleCodeInApp"
                   isinstance_bool (handle_code_in_app settings) parameters;
    parameters ← optional_setting "dynamic_link_domain" "dynamicLinkDomain"
                   isinstance_str (dynamic_link_domain settings) parameters;
    parameters ← optional_setting "ios_bundle_id" "iOSBundleId"
                   isinstance_str (ios_bundle_id settings) parameters;
    if (py_bool (android_minimum_version settings)
        || py_bool (android_install_app settings))
       && negb (py_bool (android_package_name settings)) then
      Raise (ValueError
               "Android package name is required when specifying other Android settings")
    else
      parameters ← optional_setting "android_package_name" "androidPackageName"
                     isinstance_str (android_package_name settings) parameters;
      parameters ← optional_setting "android_minimum_version" "androidMinimumVersion"
                     isinstance_str (android_minimum_version settings) parameters;
      parameters ← optional_setting "android_install_app" "androidInstallApp"
                     isinstance_bool (android_install_app settings) parameters;
      mret parameters.
End WithBuiltins.

(** A [urlparse] for the examples: the host of an [https://] URL is what
    follows the scheme up to the first slash; anything else has no host, and
    a value that is not a string raises. *)
Definition example_netloc (v : pyval) : outcome pyval :=
  match v with
  | PStr s =>
      if String.prefix "https://" s then
        Ret (PStr (List.hd EmptyString
                     (split_on "/"%char (String.substring 8 (String.length s - 8) s))))
      else Ret (PStr EmptyString)
  | _ => Raise (AttributeError
                  (sq +:+ py_type_name v +:+ sq +:+ " object has no attribute "
                   +:+ sq +:+ "decode" +:+ sq))
  end.

Definition MAX_LIST_USERS_RESULTS : Z := 1000.
Definition ID_TOOLKIT_URL : string := "https://identitytoolkit.googleapis.com/v1".

(** [UserRecord]: the data [__init__] accepted. *)
Record UserRecord : Type := { _data : dict }.

(** [UserManager]: the attribute [__init__] computes. *)
Record UserManager : Type := { base_url : string }.

(** [UserManager.__init__(self, http_client, project_id, tenant_id,
    url_override)] *)
Definition UserManager_init (project_id : string)
    (tenant_id url_override : option string) : UserManager :=
  {| base_url := make_base_url ID_TOOLKIT_URL project_id tenant_id url_override |}.

Section WithStr.
Variable py_str : pyval → string.

(** [UserRecord.__init__(self, data)] *)
Definition UserRecord_init (data : pyval) : outcome UserRecord :=
  match data with
  | PDict d =>
      if negb (py_bool (dict_get d "localId")) then
        Raise (ValueError "User ID must not be None or empty.")
      else Ret {| _data := d |}
  | _ =>
      Raise (ValueError ("Invalid data argument: " +:+ py_str data
                         +:+ ". Must be a dictionary."))
  end.

(** [UserRecord.uid] *)
Definition uid (self : UserRecord) : outcome pyval :=
  _AppCheckService.getitem (_data self) "localId".
End WithStr.

Section WithBackend.
Context {W R : Type} `{backend : !AuthBackend W R}.

(** [_make_request(self, method, path, **kwargs)]: the body and the
    response. *)
Definition _make_request (self : UserManager) (method path : string)
    (kwargs : dict) : HM W (dict * R) :=
  fun '(w, log) =>
    let url := base_url self +:+ path in
    let sent := {| method := method; request_url := url; kwargs := kwargs |} in
    match body_and_response w sent with
    | (Err (RequestException error), w') =>
        (Err (handle_auth_backend_error error), (w', log ++ [sent]))
    | (answer, w') => (answer, (w', log ++ [sent]))
    end.

(** [list_users(self, page_token, max_results)] *)
Definition list_users (self : UserManager) (page_token max_results : pyval)
  : HM W dict :=
  if negb (is_none page_token)
     && (negb (isinstance_str page_token) || negb (py_bool page_token)) then
    raise_ValueError "Page token must be a non-empty string."
  else if negb (isinstance_int max_results) then
    raise_ValueError "Max results must be an integer."
  else if (int_value max_results <? 1)%Z
          || (int_value max_results >? MAX_LIST_USERS_RESULTS)%Z then
    raise_ValueError
      ("Max results must be a positive integer less than " +:+ "1000" +:+ ".")
  else
    let payload : dict := {[ "maxResults" := max_results ]} in
    let payload :=
      if py_bool page_token then <["nextPageToken" := page_token]> payload
      else payload in
    answer ← _make_request self "get" "/accounts:batchGet"
               {[ "params" := PDict payload ]};
    mret answer.1.
End WithBackend.

(** Settings of the examples: a link that an Android app is to handle. *)
Definition example_settings : ActionCodeSettings :=
  {| url := PStr "https://example.com/finish";
     handle_code_in_app := PBool true;
     dynamic_link_domain := PNone;
     ios_bundle_id := PNone;
     android_package_name := PStr "com.example.app";
     android_install_app := PBool true;
     android_minimum_version := PNone |}.

End _user_mgt.

(** ** The arguments of a listing, for the statements about them *)

(** The arguments [_fetch_provider_configs] and [list_users] let through: a
    page token that is [None] or a non-empty string, and a number of results
    that is an [int] from 1 to [limit]. *)
Definition listing_arguments_valid (limit : Z) (page_token max_results : pyval)
  : bool :=
  (is_none page_token || isinstance_str page_token && py_bool page_token)
  && isinstance_int max_results
  && (1 <=? int_value max_results)%Z
  && (int_value max_results <=? limit)%Z.

(** The ids of one kind of provider: the strings that start with [kind]. *)
Definition is_provider_id (kind : string) (v : pyval) : bool :=
  match v with
  | PStr s => String.prefix kind s
  | _ => false
  end.

(** The query string of a listing of provider configs. *)
Definition listing_params (py_str : pyval → string)
    (page_token max_results : pyval) : string :=
  if is_none page_token then "pageSize=" +:+ py_str max_results
  else ("pageSize=" +:+ py_str max_results) +:+ "&pageToken=" +:+ py_str page_token.

(** ** A server that gives one answer to every request

    The state counts the requests; a [RequestException] becomes the
    [AuthError] with code [UNKNOWN]. *)

Module Server.
#[export] Instance backend (answer : res dict) : AuthBackend nat unit := {|
  body := fun w _ => (answer, S w);
  body_and_response :=
    fun w _ => (match answer with Ok b => Ok (b, tt) | Err r => Err r end, S w);
  handle_auth_backend_error := fun detail => AuthError "UNKNOWN" detail;
|}.

(** [str()] on the values of the examples. *)
Definition str (v : pyval) : string :=
  match v with
  | PInt z => if (z =? 50)%Z then "50" else Fake.str v
  | _ => Fake.str v
  end.

(** A first page of provider configs, with more to come. *)
Definition first_page : dict :=
  {[ "oauthIdpConfigs" := PList []; "nextPageToken" := PStr "page-2" ]}.

(** The client of project [demo]. *)
Definition providers : _auth_providers.ProviderConfigClient :=
  _auth_providers.ProviderConfigClient_init "demo" None None.
Definition users : _user_mgt.UserManager :=
  _user_mgt.UserManager_init "demo" None None.
End Server.

(** * Properties *)

(** ** The validators and the pure checks *)

Lemma py_eq_str_true (v : pyval) (s : string) :
  py_eq_str v s = true ↔ v = PStr s.
Proof.
  destruct v; simpl; try (split; [discriminate | intros [=]]).
  rewrite String.eqb_eq. split; [congruence | intros [=]; done].
Qed.

Lemma py_in_list_true (s : string) (items : list pyval) :
  py_in_list s (PList items) = true ↔ PStr s ∈ items.
Proof.
  simpl. rewrite existsb_exists. split.
  - intros (x & Hin & Heq). apply py_eq_str_true in Heq as ->.
    by apply list_elem_of_In.
  - intros Hin. exists (PStr s). split; [by apply list_elem_of_In|].
    by apply py_eq_str_true.
Qed.

Lemma dict_get_Some (d : dict) (k : string) (v : pyval) :
  d !! k = Some v → dict_get d k = v.
Proof. unfold dict_get. by intros ->. Qed.

Lemma isinstance_str_true (v : pyval) :
  isinstance_str v = true ↔ ∃ s, v = PStr s.
Proof.
  destruct v; simpl; split; try discriminate; try (intros [? [=]]); eauto.
Qed.

(** A subclass of [DecodeError] is a subclass of [InvalidTokenError], so the
    second class of the [except] tuple of [verify_token] adds nothing. *)
Lemma isinstance_DecodeError (e : exn) :
  isinstance e DecodeError = true → isinstance e InvalidTokenError = true.
Proof. destruct e as [| | | |c m]; simpl; try done. by destruct c. Qed.

Section Validators.
Variable py_str : pyval → string.

(** [check_string] accepts exactly the strings, the empty one included. *)
Lemma check_string_str (label s : string) :
  _Validators.check_string py_str label (PStr s) = Ret tt.
Proof. reflexivity. Qed.

Lemma check_string_None (label : string) :
  _Validators.check_string py_str label PNone
  = Raise (ValueError (label +:+ " " +:+ dq +:+ py_str PNone +:+ dq
                         +:+ " must be a non-empty string.")).
Proof. reflexivity. Qed.

Lemma check_string_not_str (label : string) (v : pyval) :
  isinstance_str v = false →
  ∃ msg, _Validators.check_string py_str label v = Raise (ValueError msg).
Proof. destruct v; simpl; intros; try discriminate; eauto. Qed.


Lemma check_string_Ret (label : string) (v : pyval) :
  _Validators.check_string py_str label v = Ret tt ↔ isinstance_str v = true.
Proof. destruct v; simpl; split; intros; done. Qed.
End Validators.

(** ** The service *)

Section Service.
Import _AppCheckService.
Context {W K : Type} `{jwt : !PyJWT W K}.
Variable py_str : pyval → string.
Variable self : self_.

Ltac run :=
  unfold verify_token, _decode_and_verify, verify_handler, decode_handler,
    call_get_signing_key_from_jwt,
    call_get_unverified_header, call_decode, try_except, mbind, M_bind, bind,
    mret, M_ret, ret, lift, raise, result, world_after, calls in *.

(** Case analysis on the tests of the [except] clauses in the goal. *)
Ltac split_ifs :=
  repeat match goal with
    | |- context [if ?b then _ else _] => destruct b eqn:?; simpl
    end.

Lemma headers_valid (h : dict) :
  _has_valid_token_headers py_str h = Ret tt
  ↔ h !! "typ" = Some (PStr "JWT") ∧ h !! "alg" = Some (PStr "RS256").
Proof.
  unfold _has_valid_token_headers, dict_get. split.
  - destruct (h !! "typ") as [t|] eqn:Ht; simpl; [|done].
    destruct (py_eq_str t "JWT") eqn:Et; simpl; [|done].
    apply py_eq_str_true in Et as ->.
    destruct (h !! "alg") as [a|] eqn:Ha; simpl; [|done].
    destruct (py_eq_str a "RS256") eqn:Ea; simpl; [|done].
    by apply py_eq_str_true in Ea as ->.
  - by intros [-> ->].
Qed.

Lemma headers_invalid (h : dict) :
  h !! "typ" ≠ Some (PStr "JWT") ∨ h !! "alg" ≠ Some (PStr "RS256") →
  ∃ msg, _has_valid_token_headers py_str h = Raise (ValueError msg).
Proof.
  intros Hbad.
  destruct (_has_valid_token_headers py_str h) as [[]|e] eqn:E.
  - apply headers_valid in E as [? ?]. by destruct Hbad.
  - revert E. unfold _has_valid_token_headers.
    repeat case_match; intros [= <-]; eauto.
Qed.

Lemma verify_token_success (token : pyval) (w w' : W) (log : list (call K))
    (jwk : PyJWK K) (h p : dict) (items : list pyval) (iss sub : string) :
  isinstance_str token = true →
  get_signing_key_from_jwt w token = (Ret jwk, w') →
  get_unverified_header token = Ret h →
  h !! "typ" = Some (PStr "JWT") →
  h !! "alg" = Some (PStr "RS256") →
  decode w' token (key jwk) ["RS256"%string] (_scoped_project_id self) = Ret p →
  p !! "aud" = Some (PList items) →
  PStr (_scoped_project_id self) ∈ items →
  p !! "iss" = Some (PStr iss) →
  String.prefix _APP_CHECK_ISSUER iss = true →
  p !! "sub" = Some (PStr sub) →
  verify_token py_str self token (w, log)
  = (Ret (<["app_id" := PStr sub]> p),
     (w', log ++ [CallGetSigningKey token; CallGetUnverifiedHeader token;
                  CallDecode token (key jwk) ["RS256"%string]
                    (_scoped_project_id self)])).
Proof.
  intros [t ->]%isinstance_str_true Hkey Hhdr Htyp Halg Hdec Haud Hin Hiss Hpre Hsub.
  run. simpl. rewrite Hkey, Hhdr.
  assert (_has_valid_token_headers py_str h = Ret tt) as -> by by apply headers_valid.
  rewrite Hdec. 
  rewrite (dict_get_Some _ _ _ Haud). 
  apply py_in_list_true in Hin. rewrite Hin. simpl.
  unfold getitem. rewrite Hiss. simpl. rewrite Hpre. simpl.
  rewrite (dict_get_Some _ _ _ Hsub). simpl.
  by rewrite (dict_get_Some _ _ _ Hsub), <- !app_assoc.
Qed.

Lemma verify_token_success_inv (token : pyval) (w : W) (log : list (call K))
    (c : dict) (st' : W * list (call K)) :
  verify_token py_str self token (w, log) = (Ret c, st') →
  ∃ jwk w' h p items iss sub,
    isinstance_str token = true
    ∧ get_signing_key_from_jwt w token = (Ret jwk, w')
    ∧ get_unverified_header token = Ret h
    ∧ h !! "typ" = Some (PStr "JWT")
    ∧ h !! "alg" = Some (PStr "RS256")
    ∧ decode w' token (key jwk) ["RS256"%string] (_scoped_project_id self) = Ret p
    ∧ p !! "aud" = Some (PList items)
    ∧ PStr (_scoped_project_id self) ∈ items
    ∧ p !! "iss" = Some (PStr iss)
    ∧ String.prefix _APP_CHECK_ISSUER iss = true
    ∧ p !! "sub" = Some (PStr sub)
    ∧ c = <["app_id" := PStr sub]> p
    ∧ st' = (w', log ++ [CallGetSigningKey token; CallGetUnverifiedHeader token;
                         CallDecode token (key jwk) ["RS256"%string]
                           (_scoped_project_id self)]).
Proof.
  run.
  destruct (_Validators.check_string py_str "app check token" token)
    as [[]|e0] eqn:Hstr; [|done].
  apply check_string_Ret in Hstr.
  destruct (get_signing_key_from_jwt w token) as [[jwk|e1] w'] eqn:Hkey;
    simpl; [|by split_ifs].
  destruct (get_unverified_header token) as [h|e2] eqn:Hhdr;
    simpl; [|by split_ifs].
  destruct (_has_valid_token_headers py_str h) as [[]|e3] eqn:Hh;
    simpl; [|by split_ifs].
  apply headers_valid in Hh as [Htyp Halg].
  destruct (decode w' token (key jwk) ["RS256"%string] (_scoped_project_id self))
    as [p|e4] eqn:Hdec; simpl.
  2:{ by split_ifs. }
  unfold dict_get at 1 2. unfold getitem.
  destruct (p !! "aud") as [[]|] eqn:Haud; simpl; try done.
  destruct (existsb _ items) eqn:Hin; simpl; [|done].
  change (py_in_list (_scoped_project_id self) (PList items) = true) in Hin.
  apply py_in_list_true in Hin.
  destruct (p !! "iss") as [[]|] eqn:Hiss; simpl; try done.
  destruct (String.prefix _ _) eqn:Hpre; simpl; [|done].
  unfold dict_get.
  destruct (p !! "sub") as [[]|] eqn:Hsub; simpl; try done.
  intros [= <- <-]. rewrite <- !app_assoc. simpl.
  eexists _, _, _, _, _, _, _. repeat split; eauto.
  by rewrite Hsub.
Qed.

(** A token that is not a string is turned away by the first statement,
    before the library is called. *)
Lemma verify_token_not_str (token : pyval) (w : W) (log : list (call K)) :
  isinstance_str token = false →
  ∃ msg, verify_token py_str self token (w, log) = (Raise (ValueError msg), (w, log)).
Proof.
  intros Hns.
  destruct (check_string_not_str py_str "app check token" token Hns) as [msg Hm].
  exists msg. run. by rewrite Hm.
Qed.

(** What the [except] clause of [verify_token] makes of an exception [e]
    raised inside its [try]. *)
Lemma verify_handler_cases (e : exn) (st : W * list (call K)) :
  match verify_handler e with
  | Some h => h st
  | None => (Raise e, st)
  end
  = (Raise (if isinstance e InvalidTokenError
            then ValueError ("Verifying App Check token failed. Error: " +:+ exn_str e)
            else e), st).
Proof.
  unfold verify_handler, raise.
  destruct (isinstance e InvalidTokenError) eqn:E1; simpl; [done|].
  destruct (isinstance e DecodeError) eqn:E2; [|done].
  apply isinstance_DecodeError in E2. congruence.
Qed.

Lemma verify_token_fetch_raises (s : string) (w w' : W) (log : list (call K)) (e : exn) :
  get_signing_key_from_jwt w (PStr s) = (Raise e, w') →
  verify_token py_str self (PStr s) (w, log)
  = (Raise (if isinstance e InvalidTokenError
            then ValueError ("Verifying App Check token failed. Error: " +:+ exn_str e)
            else e),
     (w', log ++ [CallGetSigningKey (PStr s)])).
Proof.
  intros Hkey.
  pose proof (verify_handler_cases e (w', log ++ [CallGetSigningKey (PStr s)])) as Hh.
  run. simpl. rewrite Hkey. simpl. by rewrite Hh.
Qed.

Lemma verify_token_header_raises (s : string) (w w' : W) (log : list (call K))
    (jwk : PyJWK K) (e : exn) :
  get_signing_key_from_jwt w (PStr s) = (Ret jwk, w') →
  get_unverified_header (PStr s) = Raise e →
  verify_token py_str self (PStr s) (w, log)
  = (Raise (if isinstance e InvalidTokenError
            then ValueError ("Verifying App Check token failed. Error: " +:+ exn_str e)
            else e),
     (w', log ++ [CallGetSigningKey (PStr s); CallGetUnverifiedHeader (PStr s)])).
Proof.
  intros Hkey Hhdr.
  pose proof (verify_handler_cases e
    (w', (log ++ [CallGetSigningKey (PStr s)]) ++ [CallGetUnverifiedHeader (PStr s)])) as Hh.
  run. simpl. rewrite Hkey, Hhdr. simpl. rewrite Hh. by rewrite <- app_assoc.
Qed.

Lemma verify_token_bad_header (s : string) (w w' : W) (log : list (call K))
    (jwk : PyJWK K) (h : dict) (msg : string) :
  get_signing_key_from_jwt w (PStr s) = (Ret jwk, w') →
  get_unverified_header (PStr s) = Ret h →
  _has_valid_token_headers py_str h = Raise (ValueError msg) →
  verify_token py_str self (PStr s) (w, log)
  = (Raise (ValueError msg),
     (w', log ++ [CallGetSigningKey (PStr s); CallGetUnverifiedHeader (PStr s)])).
Proof.
  intros Hkey Hhdr Hbad. run. simpl. rewrite Hkey, Hhdr, Hbad. simpl.
  by rewrite <- app_assoc.
Qed.

(** The state [_decode_and_verify] leaves: the world is untouched and the one
    call of [jwt.decode] is logged, whatever the result. *)
Lemma decode_and_verify_state (token : pyval) (k : K) (w : W) (log : list (call K)) :
  (_decode_and_verify py_str self token k (w, log)).2
  = (w, log ++ [CallDecode token k ["RS256"%string] (_scoped_project_id self)]).
Proof.
  run. simpl.
  destruct (decode w token k ["RS256"%string] (_scoped_project_id self)) as [p|e];
    simpl; [|by split_ifs].
  destruct (negb (isinstance_list _) || _); simpl; [done|].
  destruct (getitem p "iss") as [iss|]; simpl; [|done].
  destruct (startswith iss _APP_CHECK_ISSUER) as [b|]; simpl; [|done].
  destruct (negb b); simpl; [done|].
  by destruct (_Validators.check_string _ _ _).
Qed.

(** [verify_token], once the key is fetched and the header accepted, is
    [_decode_and_verify] followed by the [except] clause and the alias. *)
Lemma verify_token_after_header (s : string) (w w' : W) (log : list (call K))
    (jwk : PyJWK K) (h : dict) :
  get_signing_key_from_jwt w (PStr s) = (Ret jwk, w') →
  get_unverified_header (PStr s) = Ret h →
  h !! "typ" = Some (PStr "JWT") →
  h !! "alg" = Some (PStr "RS256") →
  verify_token py_str self (PStr s) (w, log)
  = (match result (_decode_and_verify py_str self (PStr s) (key jwk)
                     (w', log ++ [CallGetSigningKey (PStr s);
                                  CallGetUnverifiedHeader (PStr s)])) with
     | Ret p => Ret (<["app_id" := dict_get p "sub"]> p)
     | Raise e =>
         Raise (if isinstance e InvalidTokenError
                then ValueError ("Verifying App Check token failed. Error: "
                                 +:+ exn_str e)
                else e)
     end,
     (w', log ++ [CallGetSigningKey (PStr s); CallGetUnverifiedHeader (PStr s);
                  CallDecode (PStr s) (key jwk) ["RS256"%string]
                    (_scoped_project_id self)])).
Proof.
  intros Hkey Hhdr Htyp Halg.
  assert (_has_valid_token_headers py_str h = Ret tt) as Hh by by apply headers_valid.
  pose proof (decode_and_verify_state (PStr s) (key jwk) w'
    (log ++ [CallGetSigningKey (PStr s); CallGetUnverifiedHeader (PStr s)])) as Hst.
  unfold verify_token, result, try_except, call_get_signing_key_from_jwt,
    call_get_unverified_header, mbind, M_bind, bind, lift, mret, M_ret, ret.
  simpl. rewrite Hkey, Hhdr, Hh. simpl. rewrite <- app_assoc. simpl.
  destruct (_decode_and_verify _ _ _ _ _) as [[p|e] st]; simpl in *; subst st.
  - by rewrite <- app_assoc.
  - by rewrite verify_handler_cases, <- app_assoc.
Qed.

(** ** [_decode_and_verify] case by case *)

Lemma decode_and_verify_decode_raises (token : pyval) (k : K) (w : W)
    (log : list (call K)) (e : exn) :
  decode w token k ["RS256"%string] (_scoped_project_id self) = Raise e →
  result (_decode_and_verify py_str self token k (w, log))
  = if isinstance e InvalidSignatureError then
      Raise (ValueError "The provided App Check token has an invalid signature.")
    else if isinstance e InvalidAudienceError then
      Raise (ValueError
               ("The provided App Check token has an incorrect " +:+ dq
                +:+ "aud" +:+ dq +:+ " (audience) claim. "
                +:+ "Expected payload to include "
                +:+ _scoped_project_id self +:+ "."))
    else if isinstance e InvalidIssuerError then
      Raise (ValueError
               ("The provided App Check token has an incorrect " +:+ dq
                +:+ "iss" +:+ dq +:+ " (issuer) claim. "
                +:+ "Expected claim to include " +:+ _APP_CHECK_ISSUER))
    else if isinstance e ExpiredSignatureError then
      Raise (ValueError "The provided App Check token has expired.")
    else if isinstance e InvalidTokenError then
      Raise (ValueError ("Decoding App Check token failed. Error: " +:+ exn_str e))
    else Raise e.
Proof.
  intros Hdec. run. simpl. rewrite Hdec. by split_ifs.
Qed.


(** The checks of lines 144 to 151 on a decoded payload. *)
Lemma decode_and_verify_bad_audience (token : pyval) (k : K) (w : W)
    (log : list (call K)) (p : dict) :
  decode w token k ["RS256"%string] (_scoped_project_id self) = Ret p →
  ¬ (∃ items, p !! "aud" = Some (PList items)
              ∧ PStr (_scoped_project_id self) ∈ items) →
  result (_decode_and_verify py_str self token k (w, log))
  = Raise (ValueError
             ("Firebase App Check token has incorrect " +:+ dq +:+ "aud" +:+ dq
              +:+ " (audience) claim.")).
Proof.
  intros Hdec Hbad. run. simpl. rewrite Hdec. simpl. unfold dict_get at 1 2.
  destruct (p !! "aud") as [[| | | | |items|]|] eqn:Haud; simpl; try done.
  destruct (existsb _ items) eqn:Hin; simpl; [|done].
  change (py_in_list (_scoped_project_id self) (PList items) = true) in Hin.
  apply py_in_list_true in Hin. destruct Hbad. eauto.
Qed.


Lemma headers_Raise (h : dict) (e : exn) :
  _has_valid_token_headers py_str h = Raise e → ∃ msg, e = ValueError msg.
Proof.
  unfold _has_valid_token_headers. repeat case_match; intros [= <-]; eauto.
Qed.

(** ** Failures *)




(** C6: a token that otherwise verifies is rejected unless its decoded [aud]
    is a list that holds the expected audience (the scoped project id); a
    scalar [aud] is rejected whatever its value. *)
Theorem verify_token_requires_audience_list (s : string) (w w' : W)
    (log : list (call K)) (jwk : PyJWK K) (h p : dict) :
  get_signing_key_from_jwt w (PStr s) = (Ret jwk, w') →
  get_unverified_header (PStr s) = Ret h →
  h !! "typ" = Some (PStr "JWT") →
  h !! "alg" = Some (PStr "RS256") →
  decode w' (PStr s) (key jwk) ["RS256"%string] (_scoped_project_id self) = Ret p →
  ¬ (∃ items, p !! "aud" = Some (PList items)
              ∧ PStr (_scoped_project_id self) ∈ items) →
  result (verify_token py_str self (PStr s) (w, log))
  = Raise (ValueError
             ("Firebase App Check token has incorrect " +:+ dq +:+ "aud" +:+ dq
              +:+ " (audience) claim.")).
Proof.
  intros Hkey Hhdr Htyp Halg Hdec Hbad.
  rewrite (verify_token_after_header _ _ _ _ _ _ Hkey Hhdr Htyp Halg). simpl.
  by rewrite (decode_and_verify_bad_audience _ _ _ _ _ Hdec Hbad).
Qed.

(** C7: a token whose unverified header has a [typ] other than [JWT] or an
    [alg] other than [RS256] is rejected, and when its key was fetched the
    rejection is a [ValueError] raised before [jwt.decode] is called, so the
    signature plays no part. *)
Theorem verify_token_rejects_bad_header (token : pyval) (w : W)
    (log : list (call K)) (h : dict) :
  get_unverified_header token = Ret h →
  h !! "typ" ≠ Some (PStr "JWT") ∨ h !! "alg" ≠ Some (PStr "RS256") →
  (∃ e, result (verify_token py_str self token (w, log)) = Raise e)
  ∧ (∀ jwk w',
       isinstance_str token = true →
       get_signing_key_from_jwt w token = (Ret jwk, w') →
       ∃ msg,
         verify_token py_str self token (w, log)
         = (Raise (ValueError msg),
            (w', log ++ [CallGetSigningKey token; CallGetUnverifiedHeader token]))).
Proof.
  intros Hhdr Hbad. destruct (headers_invalid h Hbad) as [msg Hmsg].
  split.
  - destruct (isinstance_str token) eqn:Hstr.
    2:{ destruct (verify_token_not_str token w log Hstr) as [msg' ->]. eauto. }
    apply isinstance_str_true in Hstr as [s ->].
    destruct (get_signing_key_from_jwt w (PStr s)) as [[jwk|e1] w'] eqn:Hkey.
    + rewrite (verify_token_bad_header _ _ _ _ _ _ _ Hkey Hhdr Hmsg). eauto.
    + rewrite (verify_token_fetch_raises _ _ _ _ _ Hkey). eauto.
  - intros jwk w' [s ->]%isinstance_str_true Hkey. exists msg.
    by apply (verify_token_bad_header _ _ _ _ jwk h).
Qed.

(** C8: a token the library accepts (key resolved, header [JWT]/[RS256],
    signature and expiry verified by [jwt.decode]) whose [aud] list holds the
    expected audience, whose [iss] starts with the issuer URL and whose [sub]
    is a non-empty string, verifies: the mapping returned holds [app_id]
    equal to [sub], and the keys [sub], [aud] and [iss]. *)
Theorem verify_token_accepts_valid_token (s : string) (w w' : W)
    (log : list (call K)) (jwk : PyJWK K) (h p : dict) (items : list pyval)
    (iss sub : string) :
  get_signing_key_from_jwt w (PStr s) = (Ret jwk, w') →
  get_unverified_header (PStr s) = Ret h →
  h !! "typ" = Some (PStr "JWT") →
  h !! "alg" = Some (PStr "RS256") →
  decode w' (PStr s) (key jwk) ["RS256"%string] (_scoped_project_id self) = Ret p →
  p !! "aud" = Some (PList items) →
  PStr (_scoped_project_id self) ∈ items →
  p !! "iss" = Some (PStr iss) →
  String.prefix _APP_CHECK_ISSUER iss = true →
  p !! "sub" = Some (PStr sub) →
  sub ≠ EmptyString →
  ∃ c,
    result (verify_token py_str self (PStr s) (w, log)) = Ret c
    ∧ c !! "app_id" = Some (PStr sub)
    ∧ c !! "sub" = Some (PStr sub)
    ∧ c !! "aud" = Some (PList items)
    ∧ c !! "iss" = Some (PStr iss).
Proof.
  intros Hkey Hhdr Htyp Halg Hdec Haud Hin Hiss Hpre Hsub _.
  exists (<["app_id" := PStr sub]> p).
  rewrite (verify_token_success (PStr s) w w' log jwk h p items iss sub); try done.
  split; [done|].
  rewrite lookup_insert_eq, !lookup_insert_ne by done. done.
Qed.

(** C10: the mapping returned is the payload [jwt.decode] produced with
    [app_id] set to the value of [sub]: every other key is as in the payload,
    and an [app_id] of the payload is overwritten. *)
Theorem verify_token_returns_payload_with_app_id (token : pyval) (w : W)
    (log : list (call K)) (c : dict) :
  result (verify_token py_str self token (w, log)) = Ret c →
  ∃ jwk w' p sub,
    get_signing_key_from_jwt w token = (Ret jwk, w')
    ∧ decode w' token (key jwk) ["RS256"%string] (_scoped_project_id self) = Ret p
    ∧ p !! "sub" = Some (PStr sub)
    ∧ c = <["app_id" := PStr sub]> p
    ∧ c !! "app_id" = Some (PStr sub)
    ∧ ∀ name, name ≠ "app_id"%string → c !! name = p !! name.
Proof.
  unfold result. destruct (verify_token _ _ _ _) as [r st'] eqn:Hrun.
  simpl. intros ->.
  apply verify_token_success_inv in Hrun
    as (jwk & w' & h & p & items & iss & sub & _ & Hkey & _ & _ & _ & Hdec & _ & _
        & _ & _ & Hsub & -> & _).
  exists jwk, w', p, sub. repeat split; try done.
  - by rewrite lookup_insert_eq.
  - intros name Hne. by rewrite lookup_insert_ne.
Qed.

(** ** Calling twice *)

Section Idempotence.
(** The time [jwt.decode] compares [exp] with is all it reads of the world. *)
Variable clock : W → Z.
Hypothesis decode_reads_clock : ∀ w1 w2 token k algorithms audience,
  clock w1 = clock w2 →
  decode w1 token k algorithms audience = decode w2 token k algorithms audience.

(** C9: a second call with the same token, for which the key fetch returns
    the same key and the clock reads the same time, returns the same mapping
    as the first. *)
Theorem verify_token_idempotent (token : pyval) (w : W) (c : dict) :
  let first := verify_token py_str self token (w, []) in
  let w1 := world_after first in
  result first = Ret c →
  (get_signing_key_from_jwt w1 token).1 = (get_signing_key_from_jwt w token).1 →
  clock (get_signing_key_from_jwt w1 token).2
  = clock (get_signing_key_from_jwt w token).2 →
  result (verify_token py_str self token (w1, calls first)) = Ret c.
Proof.
  intros first w1 Hfirst Hsame_key Hsame_time. subst w1.
  unfold result, world_after, calls in *. subst first.
  destruct (verify_token py_str self token (w, [])) as [r [w1 log1]] eqn:Hrun.
  simpl in *. subst r.
  apply verify_token_success_inv in Hrun
    as (jwk & w' & h & p & items & iss & sub & Hstr & Hkey & Hhdr & Htyp & Halg
        & Hdec & Haud & Hin & Hiss & Hpre & Hsub & -> & [= -> ->]).
  rewrite Hkey in Hsame_key, Hsame_time. simpl in *.
  destruct (get_signing_key_from_jwt w' token) as [r2 w2] eqn:Hkey2.
  simpl in *. subst r2.
  rewrite (verify_token_success token w' w2 _ jwk h p items iss sub); try done.
  rewrite (decode_reads_clock w2 w'); done.
Qed.
End Idempotence.
End Service.

(** ** The scenario of a token for project [proj-x] *)

Section Scenario.
Import _AppCheckService.
Context {W K : Type} `{jwt : !PyJWT W K}.
Variable py_str : pyval → string.

(** What [__init__] makes of an app with a project id. *)
Lemma init_proj_x :
  __init__ {| project_id := Some "proj-x"%string |}
  = Ret {| _project_id := "proj-x"; _scoped_project_id := "projects/proj-x" |}.
Proof. reflexivity. Qed.

(** C4 (as amended): the service made from project [proj-x] expects the
    audience [projects/proj-x].  A token with header [typ] [JWT], [alg]
    [RS256], whose payload has that audience in its [aud] list, the issuer
    URL of the project, the subject [1:1234:android:abcd] and some [exp], and
    which [jwt.decode] accepts under the key fetched for it, verifies, and
    the mapping returned has [app_id] equal to [1:1234:android:abcd]. *)
Theorem verify_token_accepts_scoped_audience_token (self : self_) (s : string)
    (w w' : W) (log : list (call K)) (jwk : PyJWK K) (h p : dict) (exp : Z) :
  __init__ {| project_id := Some "proj-x"%string |} = Ret self →
  get_signing_key_from_jwt w (PStr s) = (Ret jwk, w') →
  get_unverified_header (PStr s) = Ret h →
  h !! "typ" = Some (PStr "JWT") →
  h !! "alg" = Some (PStr "RS256") →
  p = {[ "aud" := PList [PStr "projects/proj-x"];
         "iss" := PStr "https://firebaseappcheck.googleapis.com/proj-x";
         "sub" := PStr "1:1234:android:abcd";
         "exp" := PInt exp ]} →
  decode w' (PStr s) (key jwk) ["RS256"%string] "projects/proj-x" = Ret p →
  ∃ c,
    result (verify_token py_str self (PStr s) (w, log)) = Ret c
    ∧ c !! "app_id" = Some (PStr "1:1234:android:abcd").
Proof.
  intros [= <-] Hkey Hhdr Htyp Halg -> Hdec.
  eexists. split.
  - exact (f_equal fst
             (verify_token_success py_str
                {| _project_id := "proj-x"; _scoped_project_id := "projects/proj-x" |}
                (PStr s) w w' log jwk h _
                [PStr "projects/proj-x"]
                "https://firebaseappcheck.googleapis.com/proj-x"
                "1:1234:android:abcd"
                eq_refl Hkey Hhdr Htyp Halg Hdec eq_refl
                (list_elem_of_here _ _) eq_refl eq_refl eq_refl)).
  - apply lookup_insert_eq.
Qed.
End Scenario.

(** ** The service run on concrete tokens *)

(** The stand-in reads the world only through its clock when it decodes. *)
Lemma fake_decode_reads_clock (table : gmap string Fake.token) (b : bool)
    (w1 w2 : Fake.world) (token : pyval) (k : Z) (algorithms : list string)
    (audience : string) :
  Fake.now w1 = Fake.now w2 →
  Fake.fake_decode table b w1 token k algorithms audience
  = Fake.fake_decode table b w2 token k algorithms audience.
Proof.
  intros Hnow. unfold Fake.fake_decode, Fake.expired. by rewrite Hnow.
Qed.



(** C3 (the failing input): a token whose [sub] is the empty string is
    accepted, and the mapping returned has an empty [app_id]. *)
Theorem empty_subject_is_accepted :
  result (Fake.verify true (PStr "tok.empty-subject"))
  = Ret {[ "aud" := PList [PStr "projects/proj-x"];
           "iss" := PStr "https://firebaseappcheck.googleapis.com/proj-x";
           "sub" := PStr EmptyString;
           "exp" := PInt 2000;
           "app_id" := PStr EmptyString ]}.
Proof. vm_compute. reflexivity. Qed.

(** C4 (counterexample): the token of the claim, whose [aud] list holds the
    bare project id [proj-x], is rejected by the service of project [proj-x],
    both when [jwt.decode] checks the audience and when only the service's
    own check of line 145 does. *)
Lemma bare_audience_token_is_rejected :
  _AppCheckService.__init__ {| project_id := Some "proj-x"%string |}
  = Ret Fake.proj_x
  ∧ Fake.table !! "tok.bare-audience"
    = Some {| Fake.header :=
                {[ "typ" := PStr "JWT"; "alg" := PStr "RS256";
                   "kid" := PStr "key-1" ]};
              Fake.payload :=
                {[ "aud" := PList [PStr "proj-x"];
                   "iss" := PStr "https://firebaseappcheck.googleapis.com/proj-x";
                   "sub" := PStr "1:1234:android:abcd";
                   "exp" := PInt 2000 ]};
              Fake.signed_with := 11 |}
  ∧ (Fake.now Fake.world0 < 2000)%Z
  ∧ Fake.jwks Fake.world0 !! "key-1" = Some 11%Z
  ∧ result (Fake.verify true (PStr "tok.bare-audience"))
    = Raise (ValueError
               ("The provided App Check token has an incorrect " +:+ dq +:+ "aud"
                +:+ dq +:+ " (audience) claim. "
                +:+ "Expected payload to include projects/proj-x."))
  ∧ result (Fake.verify false (PStr "tok.bare-audience"))
    = Raise (ValueError
               ("Firebase App Check token has incorrect " +:+ dq +:+ "aud" +:+ dq
                +:+ " (audience) claim.")).
Proof. vm_compute. repeat split; reflexivity. Qed.

(** C4 (witness): the token whose [aud] list holds [projects/proj-x]. *)
Lemma verify_token_accepts_scoped_audience_token_witness :
  ∃ c,
    result (Fake.verify true (PStr "tok.good")) = Ret c
    ∧ c !! "app_id" = Some (PStr "1:1234:android:abcd").
Proof.
  apply (verify_token_accepts_scoped_audience_token
           (jwt := Fake.jwt Fake.table true) Fake.str Fake.proj_x "tok.good"
           Fake.world0
           {| Fake.now := 1000; Fake.jwks := Fake.jwks Fake.world0; Fake.fetched := 1 |}
           [] {| key := 11%Z |}
           (Fake.hdr "JWT" "RS256") Fake.good_claims 2000);
    vm_compute; reflexivity.
Defined.


(** C6 (witness): a token whose [aud] is the expected audience as a scalar
    string, which [jwt.decode] accepts; and a token whose [aud] list holds
    another audience, with a [jwt.decode] that leaves the audience alone. *)
Lemma verify_token_requires_audience_list_witness :
  decode (PyJWT := Fake.jwt Fake.table true)
    {| Fake.now := 1000; Fake.jwks := Fake.jwks Fake.world0; Fake.fetched := 1 |}
    (PStr "tok.scalar-audience") 11%Z ["RS256"%string] "projects/proj-x"
  = Ret (Fake.claims (PStr "projects/proj-x") [PStr "1:1234:android:abcd"] 2000)
  ∧ result (Fake.verify true (PStr "tok.scalar-audience"))
    = Raise (ValueError
               ("Firebase App Check token has incorrect " +:+ dq +:+ "aud" +:+ dq
                +:+ " (audience) claim."))
  ∧ result (Fake.verify false (PStr "tok.other-audience"))
    = Raise (ValueError
               ("Firebase App Check token has incorrect " +:+ dq +:+ "aud" +:+ dq
                +:+ " (audience) claim.")).
Proof.
  split; [vm_compute; reflexivity|]. split.
  - refine (verify_token_requires_audience_list
              (jwt := Fake.jwt Fake.table true) Fake.str Fake.proj_x
              "tok.scalar-audience" Fake.world0
              {| Fake.now := 1000; Fake.jwks := Fake.jwks Fake.world0;
                 Fake.fetched := 1 |}
              [] {| key := 11%Z |} (Fake.hdr "JWT" "RS256")
              (Fake.claims (PStr "projects/proj-x") [PStr "1:1234:android:abcd"] 2000)
              _ _ _ _ _ _); try (vm_compute; reflexivity).
    intros (items & Haud & _). vm_compute in Haud. discriminate Haud.
  - refine (verify_token_requires_audience_list
              (jwt := Fake.jwt Fake.table false) Fake.str Fake.proj_x
              "tok.other-audience" Fake.world0
              {| Fake.now := 1000; Fake.jwks := Fake.jwks Fake.world0;
                 Fake.fetched := 1 |}
              [] {| key := 11%Z |} (Fake.hdr "JWT" "RS256")
              (Fake.claims (PList [PStr "projects/other"])
                 [PStr "1:1234:android:abcd"] 2000)
              _ _ _ _ _ _); try (vm_compute; reflexivity).
    intros (items & Haud & Hin). vm_compute in Haud.
    injection Haud as <-.
    apply list_elem_of_singleton in Hin. discriminate Hin.
Defined.

(** C7 (witness): tokens signed by the expected key whose [alg] is [HS256]
    or [none], or whose [typ] is not [JWT]. *)
Lemma verify_token_rejects_bad_header_witness :
  (∃ e, result (Fake.verify true (PStr "tok.hs256")) = Raise e)
  ∧ (∃ e, result (Fake.verify true (PStr "tok.alg-none")) = Raise e)
  ∧ (∃ e, result (Fake.verify true (PStr "tok.typ-at+jwt")) = Raise e).
Proof.
  repeat split.
  - refine (proj1 (verify_token_rejects_bad_header
             (jwt := Fake.jwt Fake.table true) Fake.str Fake.proj_x
             (PStr "tok.hs256") Fake.world0 [] (Fake.hdr "JWT" "HS256") _ _));
      [vm_compute; reflexivity|].
    right. vm_compute. discriminate.
  - refine (proj1 (verify_token_rejects_bad_header
             (jwt := Fake.jwt Fake.table true) Fake.str Fake.proj_x
             (PStr "tok.alg-none") Fake.world0 [] (Fake.hdr "JWT" "none") _ _));
      [vm_compute; reflexivity|].
    right. vm_compute. discriminate.
  - refine (proj1 (verify_token_rejects_bad_header
             (jwt := Fake.jwt Fake.table true) Fake.str Fake.proj_x
             (PStr "tok.typ-at+jwt") Fake.world0 [] (Fake.hdr "at+jwt" "RS256") _ _));
      [vm_compute; reflexivity|].
    left. vm_compute. discriminate.
Defined.

(** C8 (witness): the well-formed token of the table. *)
Lemma verify_token_accepts_valid_token_witness :
  ∃ c,
    result (Fake.verify true (PStr "tok.good")) = Ret c
    ∧ c !! "app_id" = Some (PStr "1:1234:android:abcd")
    ∧ c !! "sub" = Some (PStr "1:1234:android:abcd")
    ∧ c !! "aud" = Some (PList [PStr "projects/proj-x"])
    ∧ c !! "iss" = Some (PStr "https://firebaseappcheck.googleapis.com/proj-x").
Proof.
  refine (verify_token_accepts_valid_token
            (jwt := Fake.jwt Fake.table true) Fake.str Fake.proj_x "tok.good"
            Fake.world0
            {| Fake.now := 1000; Fake.jwks := Fake.jwks Fake.world0;
               Fake.fetched := 1 |}
            [] {| key := 11%Z |} (Fake.hdr "JWT" "RS256") Fake.good_claims
            [PStr "projects/proj-x"]
            "https://firebaseappcheck.googleapis.com/proj-x" "1:1234:android:abcd"
            _ _ _ _ _ _ _ _ _ _ _); try (vm_compute; reflexivity).
  - apply list_elem_of_here.
  - discriminate.
Defined.

(** C9 (witness): the second of two calls with the well-formed token; the
    key fetch of the second call finds the same key and the clock has not
    moved. *)
Lemma verify_token_idempotent_witness :
  result (Fake.verify true (PStr "tok.good")) = Ret (<["app_id" := PStr "1:1234:android:abcd"]> Fake.good_claims)
  ∧ result (_AppCheckService.verify_token (jwt := Fake.jwt Fake.table true)
              Fake.str Fake.proj_x (PStr "tok.good")
              (world_after (Fake.verify true (PStr "tok.good")),
               calls (Fake.verify true (PStr "tok.good"))))
    = Ret (<["app_id" := PStr "1:1234:android:abcd"]> Fake.good_claims).
Proof.
  split; [vm_compute; reflexivity|].
  refine (verify_token_idempotent (jwt := Fake.jwt Fake.table true) Fake.str
            Fake.proj_x Fake.now (fake_decode_reads_clock Fake.table true)
            (PStr "tok.good") Fake.world0 _ _ _ _); vm_compute; reflexivity.
Defined.

(** C10 (witness): a token whose signed payload already has an [app_id]
    claim; the mapping returned has the subject there instead. *)
Lemma verify_token_returns_payload_with_app_id_witness :
  Fake.payload <$> Fake.table !! "tok.with-app-id"
  = Some (<["app_id" := PStr "forged-app"]> Fake.good_claims)
  ∧ ∃ jwk w' p sub,
      get_signing_key_from_jwt (PyJWT := Fake.jwt Fake.table true)
        Fake.world0 (PStr "tok.with-app-id") = (Ret jwk, w')
      ∧ decode (PyJWT := Fake.jwt Fake.table true) w' (PStr "tok.with-app-id")
          (key jwk) ["RS256"%string] "projects/proj-x" = Ret p
      ∧ p !! "sub" = Some (PStr sub)
      ∧ <["app_id" := PStr "1:1234:android:abcd"]> Fake.good_claims
        = <["app_id" := PStr sub]> p
      ∧ (<["app_id" := PStr "1:1234:android:abcd"]> Fake.good_claims : dict)
          !! "app_id" = Some (PStr sub)
      ∧ ∀ name, name ≠ "app_id"%string →
          (<["app_id" := PStr "1:1234:android:abcd"]> Fake.good_claims : dict)
            !! name = p !! name.
Proof.
  split; [vm_compute; reflexivity|].
  refine (verify_token_returns_payload_with_app_id
            (jwt := Fake.jwt Fake.table true) Fake.str Fake.proj_x
            (PStr "tok.with-app-id") Fake.world0 [] _ _).
  vm_compute; reflexivity.
Defined.

(** * More of the service: the order of the calls and the remaining checks *)

Lemma string_length_append (s1 s2 : string) :
  String.length (s1 +:+ s2) = String.length s1 + String.length s2.
Proof. induction s1 as [|a s1 IH]; simpl; [done|]. by rewrite IH. Qed.

Section ServiceChecks.
Import _AppCheckService.
Context {W K : Type} `{jwt : !PyJWT W K}.
Variable py_str : pyval → string.
Variable self : self_.

(** What [_decode_and_verify] makes of a payload whose audience is accepted:
    the issuer check, then the subject check. *)
Lemma decode_and_verify_decoded (token : pyval) (k : K) (w : W)
    (log : list (call K)) (p : dict) (items : list pyval) :
  decode w token k ["RS256"%string] (_scoped_project_id self) = Ret p →
  p !! "aud" = Some (PList items) →
  PStr (_scoped_project_id self) ∈ items →
  result (_decode_and_verify py_str self token k (w, log))
  = match getitem p "iss" with
    | Raise e => Raise e
    | Ret iss =>
        match startswith iss _APP_CHECK_ISSUER with
        | Raise e => Raise e
        | Ret false =>
            Raise (ValueError
                     ("Token does not contain the correct " +:+ dq +:+ "iss" +:+ dq
                      +:+ " (issuer)."))
        | Ret true =>
            match _Validators.check_string py_str
                    ("The provided App Check token " +:+ dq +:+ "sub" +:+ dq
                     +:+ " (subject) claim")
                    (dict_get p "sub") with
            | Ret _ => Ret p
            | Raise e => Raise e
            end
        end
    end.
Proof.
  intros Hdec Haud Hin.
  unfold _decode_and_verify, call_decode, try_except, mbind, M_bind, bind,
    mret, M_ret, ret, lift, raise, result.
  simpl. rewrite Hdec. simpl. rewrite (dict_get_Some _ _ _ Haud).
  apply py_in_list_true in Hin. rewrite Hin. simpl.
  destruct (getitem p "iss") as [iss|e]; simpl; [|done].
  destruct (startswith iss _APP_CHECK_ISSUER) as [[]|e]; simpl; try done.
  by destruct (_Validators.check_string _ _ _) as [[]|e].
Qed.

(** An exception that is not of the library passes the [except] clause of
    [verify_token] unchanged. *)
Lemma verify_token_after_header_raises (s : string) (w w' : W)
    (log : list (call K)) (jwk : PyJWK K) (h : dict) (e : exn) :
  get_signing_key_from_jwt w (PStr s) = (Ret jwk, w') →
  get_unverified_header (PStr s) = Ret h →
  h !! "typ" = Some (PStr "JWT") →
  h !! "alg" = Some (PStr "RS256") →
  result (_decode_and_verify py_str self (PStr s) (key jwk)
            (w', log ++ [CallGetSigningKey (PStr s); CallGetUnverifiedHeader (PStr s)]))
  = Raise e →
  isinstance e InvalidTokenError = false →
  result (verify_token py_str self (PStr s) (w, log)) = Raise e.
Proof.
  intros Hkey Hhdr Htyp Halg Hdv Hcls.
  rewrite (verify_token_after_header py_str self _ _ _ _ _ _ Hkey Hhdr Htyp Halg).
  unfold result at 1. cbn [fst]. by rewrite Hdv, Hcls.
Qed.

(** X1: a token that is not a string is rejected by the first statement of
    [verify_token]: the [ValueError] of [check_string] is raised, the library
    is not called and the world is as it was. *)
Theorem verify_token_rejects_non_string (token : pyval) (w : W)
    (log : list (call K)) :
  isinstance_str token = false →
  verify_token py_str self token (w, log)
  = (Raise (ValueError
              ("app check token " +:+ dq +:+ py_str token +:+ dq
               +:+ (if is_none token then " must be a non-empty string."
                    else " must be a string."))),
     (w, log)).
Proof.
  intros Hns.
  unfold verify_token, mbind, M_bind, bind, lift.
  destruct token; simpl in *; try discriminate; reflexivity.
Qed.

(** X2: the calls of the library that [verify_token] makes, in order: none
    for a token that is not a string; the key fetch alone when it raises; the
    key fetch and the header when the header does not decode or is not
    accepted; and otherwise these two followed by one [jwt.decode], with the
    fetched key, [RS256] as the only algorithm and the scoped project id as
    audience. *)
Theorem verify_token_calls (token : pyval) (w : W) (log : list (call K)) :
  ∃ l,
    calls (verify_token py_str self token (w, log)) = log ++ l
    ∧ ((l = [] ∧ isinstance_str token = false)
       ∨ (l = [CallGetSigningKey token]
          ∧ ∃ e, (get_signing_key_from_jwt w token).1 = Raise e)
       ∨ (l = [CallGetSigningKey token; CallGetUnverifiedHeader token]
          ∧ (∃ jwk, (get_signing_key_from_jwt w token).1 = Ret jwk)
          ∧ ∀ h, get_unverified_header token = Ret h →
                 ¬ (h !! "typ" = Some (PStr "JWT") ∧ h !! "alg" = Some (PStr "RS256")))
       ∨ (∃ jwk h,
            (get_signing_key_from_jwt w token).1 = Ret jwk
            ∧ get_unverified_header token = Ret h
            ∧ h !! "typ" = Some (PStr "JWT")
            ∧ h !! "alg" = Some (PStr "RS256")
            ∧ l = [CallGetSigningKey token; CallGetUnverifiedHeader token;
                   CallDecode token (key jwk) ["RS256"%string]
                     (_scoped_project_id self)])).
Proof.
  destruct (isinstance_str token) eqn:Hstr.
  2:{ destruct (verify_token_not_str py_str self token w log Hstr) as [msg ->].
      exists []. simpl. rewrite app_nil_r. eauto. }
  apply isinstance_str_true in Hstr as [s ->].
  destruct (get_signing_key_from_jwt w (PStr s)) as [[jwk|e1] w'] eqn:Hkey.
  2:{ rewrite (verify_token_fetch_raises py_str self _ _ _ _ _ Hkey). simpl.
      eexists. split; [done|]. right. left. eauto. }
  destruct (get_unverified_header (PStr s)) as [h|e2] eqn:Hhdr.
  2:{ rewrite (verify_token_header_raises py_str self _ _ _ _ _ _ Hkey Hhdr). simpl.
      eexists. split; [done|]. right. right. left.
      split; [done|]. split; [eauto|]. by intros h [=]. }
  destruct (_has_valid_token_headers py_str h) as [[]|e3] eqn:Hh.
  2:{ destruct (headers_Raise py_str _ _ Hh) as [msg ->].
      rewrite (verify_token_bad_header py_str self _ _ _ _ _ _ _ Hkey Hhdr Hh). simpl.
      eexists. split; [done|]. right. right. left.
      split; [done|]. split; [eauto|].
      intros h' [= <-] Hok. apply (headers_valid py_str) in Hok. congruence. }
  apply headers_valid in Hh as [Htyp Halg].
  rewrite (verify_token_after_header py_str self _ _ _ _ _ _ Hkey Hhdr Htyp Halg).
  simpl. eexists. split; [done|]. right. right. right.
  exists jwk, h. done.
Qed.

(** X3: a mapping is returned only after every check has passed: the token
    is a string, its key was fetched, its header has [typ] [JWT] and [alg]
    [RS256], [jwt.decode] accepted it under that key, the [aud] claim is a
    list that holds the scoped project id, [iss] is a string that starts with
    the issuer URL and [sub] is a string. *)
Theorem verify_token_success_requires_all_checks (token : pyval) (w : W)
    (log : list (call K)) (c : dict) :
  result (verify_token py_str self token (w, log)) = Ret c →
  ∃ s jwk w' h p items iss sub,
    token = PStr s
    ∧ get_signing_key_from_jwt w token = (Ret jwk, w')
    ∧ get_unverified_header token = Ret h
    ∧ h !! "typ" = Some (PStr "JWT")
    ∧ h !! "alg" = Some (PStr "RS256")
    ∧ decode w' token (key jwk) ["RS256"%string] (_scoped_project_id self) = Ret p
    ∧ p !! "aud" = Some (PList items)
    ∧ PStr (_scoped_project_id self) ∈ items
    ∧ p !! "iss" = Some (PStr iss)
    ∧ String.prefix _APP_CHECK_ISSUER iss = true
    ∧ p !! "sub" = Some (PStr sub).
Proof.
  unfold result. destruct (verify_token _ _ _ _) as [r st'] eqn:Hrun.
  simpl. intros ->.
  apply verify_token_success_inv in Hrun
    as (jwk & w' & h & p & items & iss & sub & Hstr & Hkey & Hhdr & Htyp & Halg
        & Hdec & Haud & Hin & Hiss & Hpre & Hsub & _ & _).
  apply isinstance_str_true in Hstr as [s ->].
  exists s, jwk, w', h, p, items, iss, sub. done.
Qed.

(** X4: a token that the library accepts and whose audience is accepted, but
    whose [iss] is a string that does not start with the issuer URL, is
    rejected with the [ValueError] of line 148. *)
Theorem verify_token_rejects_wrong_issuer (s : string) (w w' : W)
    (log : list (call K)) (jwk : PyJWK K) (h p : dict) (items : list pyval)
    (iss : string) :
  get_signing_key_from_jwt w (PStr s) = (Ret jwk, w') →
  get_unverified_header (PStr s) = Ret h →
  h !! "typ" = Some (PStr "JWT") →
  h !! "alg" = Some (PStr "RS256") →
  decode w' (PStr s) (key jwk) ["RS256"%string] (_scoped_project_id self) = Ret p →
  p !! "aud" = Some (PList items) →
  PStr (_scoped_project_id self) ∈ items →
  p !! "iss" = Some (PStr iss) →
  String.prefix "https://firebaseappcheck.googleapis.com/" iss = false →
  result (verify_token py_str self (PStr s) (w, log))
  = Raise (ValueError
             ("Token does not contain the correct " +:+ dq +:+ "iss" +:+ dq
              +:+ " (issuer).")).
Proof.
  intros Hkey Hhdr Htyp Halg Hdec Haud Hin Hiss Hpre.
  apply (verify_token_after_header_raises _ _ _ _ _ _ _ Hkey Hhdr Htyp Halg);
    [|done].
  rewrite (decode_and_verify_decoded _ _ _ _ _ _ Hdec Haud Hin).
  unfold getitem. rewrite Hiss. simpl.
  change (String.prefix _APP_CHECK_ISSUER iss) with
    (String.prefix "https://firebaseappcheck.googleapis.com/" iss).
  by rewrite Hpre.
Qed.

(** X5: when the payload has no [iss] claim, line 147 raises [KeyError], and
    when [iss] is not a string it raises [AttributeError]; [verify_token]
    does not catch either, so the caller receives it. *)
Theorem verify_token_issuer_not_a_string (s : string) (w w' : W)
    (log : list (call K)) (jwk : PyJWK K) (h p : dict) (items : list pyval) :
  get_signing_key_from_jwt w (PStr s) = (Ret jwk, w') →
  get_unverified_header (PStr s) = Ret h →
  h !! "typ" = Some (PStr "JWT") →
  h !! "alg" = Some (PStr "RS256") →
  decode w' (PStr s) (key jwk) ["RS256"%string] (_scoped_project_id self) = Ret p →
  p !! "aud" = Some (PList items) →
  PStr (_scoped_project_id self) ∈ items →
  (∀ iss, p !! "iss" ≠ Some (PStr iss)) →
  result (verify_token py_str self (PStr s) (w, log))
  = Raise match p !! "iss" with
          | None => KeyError "iss"
          | Some v =>
              AttributeError
                (sq +:+ py_type_name v +:+ sq +:+ " object has no attribute "
                 +:+ sq +:+ "startswith" +:+ sq)
          end.
Proof.
  intros Hkey Hhdr Htyp Halg Hdec Haud Hin Hiss.
  apply (verify_token_after_header_raises _ _ _ _ _ _ _ Hkey Hhdr Htyp Halg).
  - rewrite (decode_and_verify_decoded _ _ _ _ _ _ Hdec Haud Hin).
    unfold getitem. destruct (p !! "iss") as [v|] eqn:Hv; simpl; [|done].
    destruct v; simpl; try done. by destruct (Hiss s0).
  - by destruct (p !! "iss") as [v|].
Qed.

(** X6: when the audience and the issuer are accepted but [sub] is absent or
    is not a string, [verify_token] raises the [ValueError] of
    [check_string]. *)
Theorem verify_token_rejects_missing_subject (s : string) (w w' : W)
    (log : list (call K)) (jwk : PyJWK K) (h p : dict) (items : list pyval)
    (iss : string) :
  get_signing_key_from_jwt w (PStr s) = (Ret jwk, w') →
  get_unverified_header (PStr s) = Ret h →
  h !! "typ" = Some (PStr "JWT") →
  h !! "alg" = Some (PStr "RS256") →
  decode w' (PStr s) (key jwk) ["RS256"%string] (_scoped_project_id self) = Ret p →
  p !! "aud" = Some (PList items) →
  PStr (_scoped_project_id self) ∈ items →
  p !! "iss" = Some (PStr iss) →
  String.prefix "https://firebaseappcheck.googleapis.com/" iss = true →
  (∀ sub, p !! "sub" ≠ Some (PStr sub)) →
  result (verify_token py_str self (PStr s) (w, log))
  = Raise (ValueError
             ("The provided App Check token " +:+ dq +:+ "sub" +:+ dq
              +:+ " (subject) claim " +:+ dq +:+ py_str (dict_get p "sub") +:+ dq
              +:+ match p !! "sub" with
                  | None | Some PNone => " must be a non-empty string."
                  | _ => " must be a string."
                  end)).
Proof.
  intros Hkey Hhdr Htyp Halg Hdec Haud Hin Hiss Hpre Hsub.
  apply (verify_token_after_header_raises _ _ _ _ _ _ _ Hkey Hhdr Htyp Halg);
    [|done].
  rewrite (decode_and_verify_decoded _ _ _ _ _ _ Hdec Haud Hin).
  unfold getitem. rewrite Hiss. simpl.
  change (String.prefix _APP_CHECK_ISSUER iss) with
    (String.prefix "https://firebaseappcheck.googleapis.com/" iss).
  rewrite Hpre. unfold dict_get.
  destruct (p !! "sub") as [v|] eqn:Hv; simpl; [|done].
  destruct v; simpl; try done. by destruct (Hsub s0).
Qed.

(** X7: an exception of [jwt.decode] that is none of the four with a clause
    of their own reaches the caller as the [ValueError] of the last clause
    when it is an [InvalidTokenError], and unchanged otherwise. *)
Theorem verify_token_decode_error (s : string) (w w' : W)
    (log : list (call K)) (jwk : PyJWK K) (h : dict) (e : exn) :
  get_signing_key_from_jwt w (PStr s) = (Ret jwk, w') →
  get_unverified_header (PStr s) = Ret h →
  h !! "typ" = Some (PStr "JWT") →
  h !! "alg" = Some (PStr "RS256") →
  decode w' (PStr s) (key jwk) ["RS256"%string] (_scoped_project_id self) = Raise e →
  isinstance e InvalidSignatureError = false →
  isinstance e InvalidAudienceError = false →
  isinstance e InvalidIssuerError = false →
  isinstance e ExpiredSignatureError = false →
  result (verify_token py_str self (PStr s) (w, log))
  = Raise (if isinstance e InvalidTokenError
           then ValueError ("Decoding App Check token failed. Error: " +:+ exn_str e)
           else e).
Proof.
  intros Hkey Hhdr Htyp Halg Hdec H1 H2 H3 H4.
  pose proof (decode_and_verify_decode_raises py_str self (PStr s) (key jwk) w'
    (log ++ [CallGetSigningKey (PStr s); CallGetUnverifiedHeader (PStr s)])
    e Hdec) as Hdv.
  rewrite H1, H2, H3, H4 in Hdv.
  apply (verify_token_after_header_raises _ _ _ _ _ _ _ Hkey Hhdr Htyp Halg).
  - rewrite Hdv. by destruct (isinstance e InvalidTokenError).
  - by destruct (isinstance e InvalidTokenError) eqn:E.
Qed.

(** X8: when the header of the token does not decode, [jwt.decode] is not
    called; an [InvalidTokenError] of [jwt.get_unverified_header] reaches the
    caller as the [ValueError] of line 91, any other exception unchanged. *)
Theorem verify_token_header_decode_error (s : string) (w w' : W)
    (log : list (call K)) (jwk : PyJWK K) (e : exn) :
  get_signing_key_from_jwt w (PStr s) = (Ret jwk, w') →
  get_unverified_header (PStr s) = Raise e →
  result (verify_token py_str self (PStr s) (w, log))
  = Raise (if isinstance e InvalidTokenError
           then ValueError ("Verifying App Check token failed. Error: " +:+ exn_str e)
           else e)
  ∧ calls (verify_token py_str self (PStr s) (w, log))
    = log ++ [CallGetSigningKey (PStr s); CallGetUnverifiedHeader (PStr s)].
Proof.
  intros Hkey Hhdr.
  by rewrite (verify_token_header_raises py_str self _ _ _ _ _ _ Hkey Hhdr).
Qed.
End ServiceChecks.

(** X9: the service [__init__] makes for a project expects the audience
    [projects/<project id>]: a token the library accepts whose [aud] list
    holds only the project id itself is rejected, whatever the project id. *)
Theorem bare_project_audience_is_rejected {W K : Type} `{jwt : !PyJWT W K}
    (py_str : pyval → string) (project : string)
    (self : _AppCheckService.self_) (s : string) (w w' : W)
    (log : list (call K)) (jwk : PyJWK K) (h p : dict) :
  _AppCheckService.__init__ {| project_id := Some project |} = Ret self →
  get_signing_key_from_jwt w (PStr s) = (Ret jwk, w') →
  get_unverified_header (PStr s) = Ret h →
  h !! "typ" = Some (PStr "JWT") →
  h !! "alg" = Some (PStr "RS256") →
  decode w' (PStr s) (key jwk) ["RS256"%string] ("projects/" +:+ project) = Ret p →
  p !! "aud" = Some (PList [PStr project]) →
  result (_AppCheckService.verify_token py_str self (PStr s) (w, log))
  = Raise (ValueError
             ("Firebase App Check token has incorrect " +:+ dq +:+ "aud" +:+ dq
              +:+ " (audience) claim.")).
Proof.
  unfold _AppCheckService.__init__. simpl.
  destruct (String.eqb project EmptyString); [done|].
  intros [= <-] Hkey Hhdr Htyp Halg Hdec Haud.
  set (self := {| _AppCheckService._project_id := project;
                  _AppCheckService._scoped_project_id := "projects/" +:+ project |}).
  rewrite (verify_token_after_header py_str self _ _ _ _ _ _ Hkey Hhdr Htyp Halg).
  unfold result at 1. cbn [fst].
  rewrite (decode_and_verify_bad_audience py_str self (PStr s) (key jwk) w' _ p Hdec);
    [done|].
  intros (items & Hitems & Hin). simpl in Hin.
  rewrite Haud in Hitems. injection Hitems as <-.
  apply list_elem_of_singleton in Hin. injection Hin as Heq.
  apply (f_equal String.length) in Heq.
  change ("projects/" +:+ project) with (String.append "projects/" project) in Heq.
  rewrite string_length_append in Heq. simpl in Heq. lia.
Qed.

(** ** The remaining checks on concrete answers of the library *)

(** X1 (witness): the integer [0] and [None] as tokens. *)
Lemma verify_token_rejects_non_string_witness :
  _AppCheckService.verify_token
    (jwt := Stub.jwt (Ret Stub.the_key) (Ret Stub.jwt_rs256) (Ret ∅))
    Fake.str Fake.proj_x (PInt 0) (0, [])
  = (Raise (ValueError ("app check token " +:+ dq +:+ "0" +:+ dq
                        +:+ " must be a string.")),
     (0, []))
  ∧ _AppCheckService.verify_token
      (jwt := Stub.jwt (Ret Stub.the_key) (Ret Stub.jwt_rs256) (Ret ∅))
      Fake.str Fake.proj_x PNone (0, [])
    = (Raise (ValueError ("app check token " +:+ dq +:+ "None" +:+ dq
                          +:+ " must be a non-empty string.")),
       (0, [])).
Proof.
  split.
  - exact (verify_token_rejects_non_string
             (jwt := Stub.jwt (Ret Stub.the_key) (Ret Stub.jwt_rs256) (Ret ∅))
             Fake.str Fake.proj_x (PInt 0) 0 [] eq_refl).
  - exact (verify_token_rejects_non_string
             (jwt := Stub.jwt (Ret Stub.the_key) (Ret Stub.jwt_rs256) (Ret ∅))
             Fake.str Fake.proj_x PNone 0 [] eq_refl).
Defined.

(** X3 (witness): the well-formed token of the table. *)
Lemma verify_token_success_requires_all_checks_witness :
  ∃ s jwk w' h p items iss sub,
    PStr "tok.good" = PStr s
    ∧ get_signing_key_from_jwt (PyJWT := Fake.jwt Fake.table true)
        Fake.world0 (PStr "tok.good") = (Ret jwk, w')
    ∧ get_unverified_header (PyJWT := Fake.jwt Fake.table true) (PStr "tok.good")
      = Ret h
    ∧ h !! "typ" = Some (PStr "JWT")
    ∧ h !! "alg" = Some (PStr "RS256")
    ∧ decode (PyJWT := Fake.jwt Fake.table true) w' (PStr "tok.good") (key jwk)
        ["RS256"%string] "projects/proj-x" = Ret p
    ∧ p !! "aud" = Some (PList items)
    ∧ PStr "projects/proj-x" ∈ items
    ∧ p !! "iss" = Some (PStr iss)
    ∧ String.prefix _AppCheckService._APP_CHECK_ISSUER iss = true
    ∧ p !! "sub" = Some (PStr sub).
Proof.
  refine (verify_token_success_requires_all_checks
            (jwt := Fake.jwt Fake.table true) Fake.str Fake.proj_x
            (PStr "tok.good") Fake.world0 []
            (<["app_id" := PStr "1:1234:android:abcd"]> Fake.good_claims) _).
  vm_compute; reflexivity.
Defined.

(** X4 (witness): a payload issued by another host. *)
Lemma verify_token_rejects_wrong_issuer_witness :
  result (Stub.verify_decoded
            (Ret {[ "aud" := PList [PStr "projects/proj-x"];
                    "iss" := PStr "https://example.com/proj-x";
                    "sub" := PStr "1:1234:android:abcd" ]}))
  = Raise (ValueError
             ("Token does not contain the correct " +:+ dq +:+ "iss" +:+ dq
              +:+ " (issuer).")).
Proof.
  refine (verify_token_rejects_wrong_issuer
            (jwt := Stub.jwt (Ret Stub.the_key) (Ret Stub.jwt_rs256) _)
            Fake.str Fake.proj_x "t" 0 1 [] Stub.the_key Stub.jwt_rs256 _
            [PStr "projects/proj-x"] "https://example.com/proj-x"
            eq_refl eq_refl _ _ eq_refl _ _ _ _); try (vm_compute; reflexivity).
  apply list_elem_of_here.
Defined.

(** X5 (witness): a payload without [iss], and one whose [iss] is a number. *)
Lemma verify_token_issuer_not_a_string_witness :
  result (Stub.verify_decoded
            (Ret {[ "aud" := PList [PStr "projects/proj-x"];
                    "sub" := PStr "1:1234:android:abcd" ]}))
  = Raise (KeyError "iss")
  ∧ result (Stub.verify_decoded
              (Ret {[ "aud" := PList [PStr "projects/proj-x"];
                      "iss" := PInt 7;
                      "sub" := PStr "1:1234:android:abcd" ]}))
    = Raise (AttributeError
               (sq +:+ "int" +:+ sq +:+ " object has no attribute " +:+ sq
                +:+ "startswith" +:+ sq)).
Proof.
  split.
  - refine (verify_token_issuer_not_a_string
              (jwt := Stub.jwt (Ret Stub.the_key) (Ret Stub.jwt_rs256) _)
              Fake.str Fake.proj_x "t" 0 1 [] Stub.the_key Stub.jwt_rs256
              {[ "aud" := PList [PStr "projects/proj-x"];
                 "sub" := PStr "1:1234:android:abcd" ]}
              [PStr "projects/proj-x"]
              eq_refl eq_refl _ _ eq_refl _ _ _); try (vm_compute; reflexivity).
    + apply list_elem_of_here.
    + intros iss Hiss. vm_compute in Hiss. discriminate Hiss.
  - refine (verify_token_issuer_not_a_string
              (jwt := Stub.jwt (Ret Stub.the_key) (Ret Stub.jwt_rs256) _)
              Fake.str Fake.proj_x "t" 0 1 [] Stub.the_key Stub.jwt_rs256
              {[ "aud" := PList [PStr "projects/proj-x"];
                 "iss" := PInt 7;
                 "sub" := PStr "1:1234:android:abcd" ]}
              [PStr "projects/proj-x"]
              eq_refl eq_refl _ _ eq_refl _ _ _); try (vm_compute; reflexivity).
    + apply list_elem_of_here.
    + intros iss Hiss. vm_compute in Hiss. discriminate Hiss.
Defined.

(** X6 (witness): a payload without [sub], and one whose [sub] is a number. *)
Lemma verify_token_rejects_missing_subject_witness :
  result (Stub.verify_decoded
            (Ret {[ "aud" := PList [PStr "projects/proj-x"];
                    "iss" := PStr "https://firebaseappcheck.googleapis.com/proj-x" ]}))
  = Raise (ValueError
             ("The provided App Check token " +:+ dq +:+ "sub" +:+ dq
              +:+ " (subject) claim " +:+ dq +:+ "None" +:+ dq
              +:+ " must be a non-empty string."))
  ∧ result (Stub.verify_decoded
              (Ret {[ "aud" := PList [PStr "projects/proj-x"];
                      "iss" := PStr "https://firebaseappcheck.googleapis.com/proj-x";
                      "sub" := PBool true ]}))
    = Raise (ValueError
               ("The provided App Check token " +:+ dq +:+ "sub" +:+ dq
                +:+ " (subject) claim " +:+ dq +:+ "True" +:+ dq
                +:+ " must be a string.")).
Proof.
  split.
  - refine (verify_token_rejects_missing_subject
              (jwt := Stub.jwt (Ret Stub.the_key) (Ret Stub.jwt_rs256) _)
              Fake.str Fake.proj_x "t" 0 1 [] Stub.the_key Stub.jwt_rs256
              {[ "aud" := PList [PStr "projects/proj-x"];
                 "iss" := PStr "https://firebaseappcheck.googleapis.com/proj-x" ]}
              [PStr "projects/proj-x"]
              "https://firebaseappcheck.googleapis.com/proj-x"
              eq_refl eq_refl _ _ eq_refl _ _ _ _ _); try (vm_compute; reflexivity).
    + apply list_elem_of_here.
    + intros sub Hsub. vm_compute in Hsub. discriminate Hsub.
  - refine (verify_token_rejects_missing_subject
              (jwt := Stub.jwt (Ret Stub.the_key) (Ret Stub.jwt_rs256) _)
              Fake.str Fake.proj_x "t" 0 1 [] Stub.the_key Stub.jwt_rs256
              {[ "aud" := PList [PStr "projects/proj-x"];
                 "iss" := PStr "https://firebaseappcheck.googleapis.com/proj-x";
                 "sub" := PBool true ]}
              [PStr "projects/proj-x"]
              "https://firebaseappcheck.googleapis.com/proj-x"
              eq_refl eq_refl _ _ eq_refl _ _ _ _ _); try (vm_compute; reflexivity).
    + apply list_elem_of_here.
    + intros sub Hsub. vm_compute in Hsub. discriminate Hsub.
Defined.

(** X7 (witness): a token that is not yet valid, and a key of the wrong
    kind. *)
Lemma verify_token_decode_error_witness :
  result (Stub.verify_decoded
            (Raise (JwtError ImmatureSignatureError "The token is not yet valid (nbf)")))
  = Raise (ValueError
             "Decoding App Check token failed. Error: The token is not yet valid (nbf)")
  ∧ result (Stub.verify_decoded
              (Raise (JwtError InvalidKeyError "Expecting a PEM-formatted key.")))
    = Raise (JwtError InvalidKeyError "Expecting a PEM-formatted key.").
Proof.
  split.
  - exact (verify_token_decode_error
             (jwt := Stub.jwt (Ret Stub.the_key) (Ret Stub.jwt_rs256) _)
             Fake.str Fake.proj_x "t" 0 1 [] Stub.the_key Stub.jwt_rs256
             (JwtError ImmatureSignatureError "The token is not yet valid (nbf)")
             eq_refl eq_refl eq_refl eq_refl eq_refl
             eq_refl eq_refl eq_refl eq_refl).
  - exact (verify_token_decode_error
             (jwt := Stub.jwt (Ret Stub.the_key) (Ret Stub.jwt_rs256) _)
             Fake.str Fake.proj_x "t" 0 1 [] Stub.the_key Stub.jwt_rs256
             (JwtError InvalidKeyError "Expecting a PEM-formatted key.")
             eq_refl eq_refl eq_refl eq_refl eq_refl
             eq_refl eq_refl eq_refl eq_refl).
Defined.

(** X8 (witness): a header that is not valid base64. *)
Lemma verify_token_header_decode_error_witness :
  result (_AppCheckService.verify_token
            (jwt := Stub.jwt (Ret Stub.the_key)
                      (Raise (JwtError DecodeError "Invalid header padding")) (Ret ∅))
            Fake.str Fake.proj_x (PStr "t") (0, []))
  = Raise (ValueError
             "Verifying App Check token failed. Error: Invalid header padding")
  ∧ calls (_AppCheckService.verify_token
             (jwt := Stub.jwt (Ret Stub.the_key)
                       (Raise (JwtError DecodeError "Invalid header padding")) (Ret ∅))
             Fake.str Fake.proj_x (PStr "t") (0, []))
    = [CallGetSigningKey (PStr "t"); CallGetUnverifiedHeader (PStr "t")].
Proof.
  exact (verify_token_header_decode_error
           (jwt := Stub.jwt (Ret Stub.the_key)
                     (Raise (JwtError DecodeError "Invalid header padding")) (Ret ∅))
           Fake.str Fake.proj_x "t" 0 1 [] Stub.the_key
           (JwtError DecodeError "Invalid header padding") eq_refl eq_refl).
Defined.

(** X9 (witness): the project [demo-app] and a token for the audience
    [demo-app]. *)
Lemma bare_project_audience_is_rejected_witness :
  result (_AppCheckService.verify_token
            (jwt := Stub.jwt (Ret Stub.the_key) (Ret Stub.jwt_rs256)
                      (Ret {[ "aud" := PList [PStr "demo-app"];
                              "iss" := PStr "https://firebaseappcheck.googleapis.com/demo-app";
                              "sub" := PStr "1:1234:android:abcd" ]}))
            Fake.str
            {| _AppCheckService._project_id := "demo-app";
               _AppCheckService._scoped_project_id := "projects/demo-app" |}
            (PStr "t") (0, []))
  = Raise (ValueError
             ("Firebase App Check token has incorrect " +:+ dq +:+ "aud" +:+ dq
              +:+ " (audience) claim.")).
Proof.
  refine (bare_project_audience_is_rejected
            (jwt := Stub.jwt (Ret Stub.the_key) (Ret Stub.jwt_rs256) _)
            Fake.str "demo-app"
            {| _AppCheckService._project_id := "demo-app";
               _AppCheckService._scoped_project_id := "projects/demo-app" |}
            "t" 0 1 [] Stub.the_key Stub.jwt_rs256 _
            eq_refl eq_refl eq_refl _ _ eq_refl _); vm_compute; reflexivity.
Defined.

(** * The validators of the provider module *)

Lemma prefix_append (p s : string) :
  String.prefix p s = true ↔ ∃ rest, s = p +:+ rest.
Proof.
  revert s. induction p as [|a p IH]; intros s.
  - split; [by exists s|by destruct s].
  - destruct s as [|b s]; simpl; [split; [done|by intros [? [=]]]|].
    destruct (ascii_dec a b) as [->|Hne].
    + rewrite IH. split; intros [rest Hrest]; exists rest.
      * by rewrite Hrest.
      * by injection Hrest.
    + split; [done|]. intros [rest [= Heq _]]. by destruct Hne.
Qed.

Section ProviderIds.
Import _auth_providers.
Variable py_str : pyval → string.

Lemma validate_oidc_Ret (v a : pyval) :
  _validate_oidc_provider_id py_str v = Ret a →
  a = v ∧ ∃ s, v = PStr ("oidc." +:+ s).
Proof.
  unfold _validate_oidc_provider_id.
  destruct v; simpl; try done.
  destruct (String.prefix "oidc." s) eqn:Hp; simpl; [|done].
  intros [= <-]. split; [done|].
  apply prefix_append in Hp as [rest ->]. eauto.
Qed.

Lemma validate_saml_Ret (v a : pyval) :
  _validate_saml_provider_id py_str v = Ret a →
  a = v ∧ ∃ s, v = PStr ("saml." +:+ s).
Proof.
  unfold _validate_saml_provider_id.
  destruct v; simpl; try done.
  destruct (String.prefix "saml." s) eqn:Hp; simpl; [|done].
  intros [= <-]. split; [done|].
  apply prefix_append in Hp as [rest ->]. eauto.
Qed.

(** X10: [_validate_oidc_provider_id] returns its argument, and only when it
    is a string that starts with [oidc.]; [_validate_saml_provider_id]
    likewise with [saml.]; and an id that one of them accepts is rejected by
    the other with a [ValueError]. *)
Theorem provider_id_validators_are_exclusive (v : pyval) :
  (∀ a, _validate_oidc_provider_id py_str v = Ret a →
        a = v ∧ (∃ s, v = PStr ("oidc." +:+ s))
        ∧ _validate_saml_provider_id py_str v
          = Raise (ValueError ("Invalid SAML provider ID: " +:+ py_str v +:+ ".")))
  ∧ (∀ a, _validate_saml_provider_id py_str v = Ret a →
          a = v ∧ (∃ s, v = PStr ("saml." +:+ s))
          ∧ _validate_oidc_provider_id py_str v
            = Raise (ValueError ("Invalid OIDC provider ID: " +:+ py_str v +:+ "."))).
Proof.
  split; intros a Hok.
  - destruct (validate_oidc_Ret _ _ Hok) as [-> [s ->]].
    repeat split; eauto.
  - destruct (validate_saml_Ret _ _ Hok) as [-> [s ->]].
    repeat split; eauto.
Qed.

(** X11: [_validate_non_empty_string] returns its argument, and only when it
    is a string that is not empty; every value it accepts is accepted by
    [check_string] of the App Check module, which also accepts the empty
    string that [_validate_non_empty_string] rejects. *)
Theorem validate_non_empty_string_is_stricter_than_check_string
    (value : pyval) (label label' : string) :
  (∀ a, _validate_non_empty_string py_str value label = Ret a →
        a = value ∧ (∃ s, value = PStr s ∧ s ≠ EmptyString)
        ∧ _Validators.check_string py_str label' value = Ret tt)
  ∧ _validate_non_empty_string py_str (PStr EmptyString) label
    = Raise (ValueError (label +:+ " must not be empty."))
  ∧ _Validators.check_string py_str label' (PStr EmptyString) = Ret tt.
Proof.
  split; [|done].
  intros a. unfold _validate_non_empty_string.
  destruct value; simpl; try done.
  destruct (String.eqb s EmptyString) eqn:He; simpl; [done|].
  intros [= <-]. apply String.eqb_neq in He. eauto.
Qed.
End ProviderIds.

Section Certificates.
Import _auth_providers.

Lemma non_empty_string_test (cert : pyval) :
  isinstance_str cert && py_bool cert = true
  ↔ ∃ s, cert = PStr s ∧ s ≠ EmptyString.
Proof.
  destruct cert; simpl; try (split; [done|by intros (? & [=] & _)]).
  rewrite negb_true_iff, String.eqb_neq. split.
  - eauto.
  - by intros (? & [= <-] & ?).
Qed.

(** X12: [_validate_x509_certificates] accepts exactly the non-empty lists
    of non-empty strings, and what it returns is the list of the same length
    that holds, for each certificate in order, the dict with the certificate
    under [x509Certificate]. *)
Theorem validate_x509_certificates_accepts (v out : pyval) :
  _validate_x509_certificates v = Ret out
  ↔ ∃ certs,
      v = PList certs
      ∧ certs ≠ []
      ∧ Forall (fun cert => ∃ s, cert = PStr s ∧ s ≠ EmptyString) certs
      ∧ out = PList (map certificate_entry certs).
Proof.
  unfold _validate_x509_certificates. split.
  - destruct v as [| | | | |certs|]; simpl; try done.
    destruct certs as [|c certs]; [done|]. cbn [negb].
    destruct (forallb _ (c :: certs)) eqn:Hall; cbn [negb]; [|done].
    intros [= <-]. exists (c :: certs). repeat split; [done|].
    apply Forall_forall. intros cert Hin%list_elem_of_In.
    rewrite forallb_forall in Hall. by apply non_empty_string_test, Hall.
  - intros (certs & -> & Hne & Hall & ->).
    destruct certs as [|c certs]; [done|]. simpl list_items. cbn -[forallb].
    assert (forallb (fun cert => isinstance_str cert && py_bool cert) (c :: certs)
            = true) as ->; [|done].
    apply forallb_forall. intros cert Hin%list_elem_of_In.
    apply non_empty_string_test. by eapply Forall_forall in Hall.
Qed.

Lemma certificates_of_entries (certs : list pyval) :
  mapM (fun c => py_getitem c "x509Certificate") (map certificate_entry certs)
  = Ret certs.
Proof.
  induction certs as [|c certs IH]; [done|].
  cbn [map mapM]. rewrite IH. reflexivity.
Qed.

(** X13: what [_validate_x509_certificates] puts in a request reads back
    through [SAMLProviderConfig.x509_certificates] as the list that was
    validated: for a config whose [idpConfig] holds the validated entries
    under [idpCertificates], the property returns the original list. *)
Theorem x509_certificates_round_trip (v out : pyval) (data idp_config : dict) :
  _validate_x509_certificates v = Ret out →
  data !! "idpConfig" = Some (PDict idp_config) →
  idp_config !! "idpCertificates" = Some out →
  x509_certificates {| _data := data |} = Ret v.
Proof.
  intros (certs & -> & _ & _ & ->)%validate_x509_certificates_accepts Hidp Hcerts.
  unfold x509_certificates, _AppCheckService.getitem. simpl.
  rewrite Hidp. simpl. unfold _AppCheckService.getitem. rewrite Hcerts. simpl.
  by rewrite certificates_of_entries.
Qed.
End Certificates.

Lemma string_app_cons (s1 : string) (a : ascii) (s2 s3 : string) :
  s1 +:+ String a (s2 +:+ s3) = (s1 +:+ String a s2) +:+ s3.
Proof.
  induction s1 as [|b s1 IH]; [done|].
  change (String b (s1 +:+ String a (s2 +:+ s3))
          = String b ((s1 +:+ String a s2) +:+ s3)).
  by f_equal.
Qed.

Section Split.
Variable sep : ascii.

Lemma split_on_not_nil (s : string) : split_on sep s ≠ [].
Proof.
  destruct s as [|c rest]; simpl; [done|].
  destruct (Ascii.eqb c sep); [done|]. by destruct (split_on sep rest).
Qed.

(** Joining the pieces of a string gives the string back. *)
Lemma join_split_on (s : string) : join_with sep (split_on sep s) = s.
Proof.
  induction s as [|c rest IH]; simpl; [done|].
  destruct (Ascii.eqb c sep) eqn:Hc.
  - apply Ascii.eqb_eq in Hc as ->.
    pose proof (split_on_not_nil rest) as Hne.
    destruct (split_on sep rest) as [|piece pieces]; [done|].
    simpl in *. by rewrite IH.
  - pose proof (split_on_not_nil rest) as Hne.
    destruct (split_on sep rest) as [|piece pieces]; [done|].
    destruct pieces as [|piece' pieces]; simpl in *; by rewrite <- IH.
Qed.

(** No piece holds the separator. *)
Lemma split_on_pieces (s : string) :
  Forall (fun piece => sep ∉ list_ascii_of_string piece) (split_on sep s).
Proof.
  induction s as [|c rest IH]; simpl.
  - repeat constructor. simpl. apply not_elem_of_nil.
  - destruct (Ascii.eqb c sep) eqn:Hc.
    + constructor; [simpl; apply not_elem_of_nil|done].
    + apply Ascii.eqb_neq in Hc.
      destruct (split_on sep rest) as [|piece pieces].
      * repeat constructor. simpl. intros Hin.
        apply elem_of_cons in Hin as [->|Hin]; [done|by apply elem_of_nil in Hin].
      * apply Forall_cons in IH as [Hpiece Hpieces].
        constructor; [|done]. simpl. intros Hin.
        apply elem_of_cons in Hin as [->|Hin]; done.
Qed.

(** A joined list is its last piece, or ends with the separator followed by
    its last piece. *)
Lemma join_with_last (pieces : list string) :
  pieces ≠ [] →
  join_with sep pieces = List.last pieces EmptyString
  ∨ ∃ pre, join_with sep pieces
           = pre +:+ String sep (List.last pieces EmptyString).
Proof.
  induction pieces as [|piece pieces IH]; [done|]. intros _.
  destruct pieces as [|piece' pieces]; [by left|].
  right. destruct IH as [IH|[pre IH]]; [done| |].
  - exists piece. change (List.last (piece :: piece' :: pieces) EmptyString)
      with (List.last (piece' :: pieces) EmptyString).
    rewrite <- IH. reflexivity.
  - exists (piece +:+ String sep pre).
    change (List.last (piece :: piece' :: pieces) EmptyString)
      with (List.last (piece' :: pieces) EmptyString).
    change (join_with sep (piece :: piece' :: pieces))
      with (piece +:+ String sep (join_with sep (piece' :: pieces))).
    rewrite IH. apply string_app_cons.
Qed.
End Split.

Lemma last_elem_of {A} (l : list A) (d : A) : l ≠ [] → List.last l d ∈ l.
Proof.
  induction l as [|x l IH]; [done|]. intros _.
  destruct l as [|y l]; [apply list_elem_of_here|].
  apply list_elem_of_further, IH. done.
Qed.

(** X14: [ProviderConfig.provider_id] is the last segment of the resource
    name: when [name] is a string, the property returns the part of it after
    its last slash, that is a string without a slash which either is the
    whole name or is preceded in it by a slash. *)
Theorem provider_id_is_last_segment (data : dict) (name : string) :
  data !! "name" = Some (PStr name) →
  ∃ id,
    _auth_providers.provider_id {| _auth_providers._data := data |} = Ret id
    ∧ ("/"%char ∉ list_ascii_of_string id)
    ∧ (name = id ∨ ∃ pre, name = pre +:+ String "/"%char id).
Proof.
  intros Hname. exists (List.last (split_on "/"%char name) EmptyString).
  split; [|split].
  - unfold _auth_providers.provider_id, _AppCheckService.getitem. simpl.
    by rewrite Hname.
  - pose proof (split_on_pieces "/"%char name) as Hall.
    eapply Forall_forall in Hall; [exact Hall|].
    apply last_elem_of, split_on_not_nil.
  - destruct (join_with_last "/"%char (split_on "/"%char name)) as [Heq|[pre Heq]].
    + apply split_on_not_nil.
    + left. by rewrite join_split_on in Heq.
    + right. exists pre. by rewrite join_split_on in Heq.
Qed.

(** * The settings of an email action link *)

Section ActionCodeSettings.
Import _user_mgt.
Variable py_str : pyval → string.
Variable urlparse_netloc : pyval → outcome pyval.

Lemma optional_setting_Ret (name key : string) (of_type : pyval → bool)
    (value : pyval) (p p' : dict) :
  optional_setting py_str name key of_type value p = Ret p' →
  (is_none value = true ∧ p' = p)
  ∨ (is_none value = false ∧ of_type value = true ∧ p' = <[key := value]> p).
Proof.
  unfold optional_setting.
  destruct (is_none value); simpl; [intros [= <-]; by left|].
  destruct (of_type value); simpl; [|done].
  intros [= <-]. by right.
Qed.

Lemma optional_setting_Raise (name key : string) (of_type : pyval → bool)
    (value : pyval) (p : dict) (e : exn) :
  optional_setting py_str name key of_type value p = Raise e →
  ∃ msg, e = ValueError msg.
Proof.
  unfold optional_setting.
  destruct (is_none value); simpl; [done|].
  destruct (of_type value); simpl; [done|].
  intros [= <-]. eauto.
Qed.

(** What [optional_setting] stores, key by key. *)
Lemma optional_setting_lookup (name key : string) (of_type : pyval → bool)
    (value : pyval) (p p' : dict) :
  optional_setting py_str name key of_type value p = Ret p' →
  (∀ k : string,
     p' !! k = if bool_decide (k = key) && negb (is_none value)
               then Some value else p !! k)
  ∧ (if is_none value then True else of_type value = true).
Proof.
  intros [[Hnone ->]|(Hnone & Htype & ->)]%optional_setting_Ret; rewrite Hnone.
  - split; [|done]. intros k. by rewrite andb_false_r.
  - split; [|done]. intros k. rewrite andb_true_r.
    destruct (bool_decide (k = key)) eqn:Hk.
    + apply bool_decide_eq_true in Hk as ->. apply lookup_insert_eq.
    + apply bool_decide_eq_false in Hk. by apply lookup_insert_ne.
Qed.

(** The steps of a successful [encode_action_code_settings], in order. *)
Lemma encode_action_code_settings_Ret (settings : ActionCodeSettings)
    (parameters : dict) :
  encode_action_code_settings py_str urlparse_netloc settings = Ret parameters →
  ∃ netloc p1 p2 p3 p4 p5,
    py_bool (url settings) = true
    ∧ urlparse_netloc (url settings) = Ret netloc
    ∧ py_bool netloc = true
    ∧ optional_setting py_str "handle_code_in_app" "canHandleCodeInApp"
        isinstance_bool (handle_code_in_app settings)
        (<["continueUrl" := url settings]> ∅) = Ret p1
    ∧ optional_setting py_str "dynamic_link_domain" "dynamicLinkDomain"
        isinstance_str (dynamic_link_domain settings) p1 = Ret p2
    ∧ optional_setting py_str "ios_bundle_id" "iOSBundleId"
        isinstance_str (ios_bundle_id settings) p2 = Ret p3
    ∧ (py_bool (android_minimum_version settings)
       || py_bool (android_install_app settings))
      && negb (py_bool (android_package_name settings)) = false
    ∧ optional_setting py_str "android_package_name" "androidPackageName"
        isinstance_str (android_package_name settings) p3 = Ret p4
    ∧ optional_setting py_str "android_minimum_version" "androidMinimumVersion"
        isinstance_str (android_minimum_version settings) p4 = Ret p5
    ∧ optional_setting py_str "android_install_app" "androidInstallApp"
        isinstance_bool (android_install_app settings) p5 = Ret parameters.
Proof.
  unfold encode_action_code_settings, mbind, outcome_bind, mret, outcome_ret.
  destruct (py_bool (url settings)) eqn:Hurl; simpl; [|done].
  destruct (urlparse_netloc (url settings)) as [netloc|e0] eqn:Hnet; simpl; [|done].
  destruct (py_bool netloc) eqn:Hhost; simpl; [|done].
  destruct (optional_setting _ "handle_code_in_app" _ _ _ _) as [p1|e1] eqn:H1;
    [|done].
  destruct (optional_setting _ "dynamic_link_domain" _ _ _ _) as [p2|e2] eqn:H2;
    [|done].
  destruct (optional_setting _ "ios_bundle_id" _ _ _ _) as [p3|e3] eqn:H3; [|done].
  destruct ((py_bool (android_minimum_version settings)
             || py_bool (android_install_app settings))
            && negb (py_bool (android_package_name settings))) eqn:Handroid;
    [done|].
  destruct (optional_setting _ "android_package_name" _ _ _ _) as [p4|e4] eqn:H4;
    [|done].
  destruct (optional_setting _ "android_minimum_version" _ _ _ _) as [p5|e5] eqn:H5;
    [|done].
  destruct (optional_setting _ "android_install_app" _ _ _ _) as [p6|e6] eqn:H6;
    [|done].
  intros [= <-]. exists netloc, p1, p2, p3, p4, p5. repeat split; assumption.
Qed.

(** X15: [encode_action_code_settings] raises nothing but [ValueError]:
    whatever [urlparse] raises is replaced by one, and every rejected setting
    is reported as one. *)
Theorem encode_action_code_settings_raises_ValueError
    (settings : ActionCodeSettings) (e : exn) :
  encode_action_code_settings py_str urlparse_netloc settings = Raise e →
  ∃ msg, e = ValueError msg.
Proof.
  unfold encode_action_code_settings, mbind, outcome_bind, mret, outcome_ret.
  destruct (py_bool (url settings)); simpl; [|intros [= <-]; eauto].
  destruct (urlparse_netloc (url settings)) as [netloc|e0]; simpl;
    [|intros [= <-]; eauto].
  destruct (py_bool netloc); simpl; [|intros [= <-]; eauto].
  destruct (optional_setting _ "handle_code_in_app" _ _ _ _) as [p1|e1] eqn:H1;
    [|intros [= <-]; by eapply optional_setting_Raise].
  destruct (optional_setting _ "dynamic_link_domain" _ _ _ _) as [p2|e2] eqn:H2;
    [|intros [= <-]; by eapply optional_setting_Raise].
  destruct (optional_setting _ "ios_bundle_id" _ _ _ _) as [p3|e3] eqn:H3;
    [|intros [= <-]; by eapply optional_setting_Raise].
  destruct ((py_bool (android_minimum_version settings)
             || py_bool (android_install_app settings))
            && negb (py_bool (android_package_name settings)));
    [intros [= <-]; eauto|].
  destruct (optional_setting _ "android_package_name" _ _ _ _) as [p4|e4] eqn:H4;
    [|intros [= <-]; by eapply optional_setting_Raise].
  destruct (optional_setting _ "android_minimum_version" _ _ _ _) as [p5|e5] eqn:H5;
    [|intros [= <-]; by eapply optional_setting_Raise].
  destruct (optional_setting _ "android_install_app" _ _ _ _) as [p6|e6] eqn:H6;
    [done|intros [= <-]; by eapply optional_setting_Raise].
Qed.

(** X16: parameters that ask to install the Android app, or that name a
    minimum Android version, always carry the Android package name, a
    non-empty string. *)
Theorem encode_action_code_settings_android_package
    (settings : ActionCodeSettings) (parameters : dict) :
  encode_action_code_settings py_str urlparse_netloc settings = Ret parameters →
  py_bool (android_install_app settings) = true
  ∨ py_bool (android_minimum_version settings) = true →
  ∃ package,
    package ≠ EmptyString
    ∧ android_package_name settings = PStr package
    ∧ parameters !! "androidPackageName" = Some (PStr package).
Proof.
  intros (netloc & p1 & p2 & p3 & p4 & p5 & _ & _ & _ & _ & _ & _ & Handroid
          & H4 & H5 & H6)%encode_action_code_settings_Ret Hasked.
  assert (py_bool (android_package_name settings) = true) as Hpkg.
  { destruct (py_bool (android_package_name settings)); [done|].
    rewrite andb_true_r in Handroid.
    apply orb_false_iff in Handroid as [Hversion Hinstall].
    destruct Hasked; congruence. }
  apply optional_setting_Ret in H4 as [[Hnone _]|(_ & Hstr & ->)].
  { destruct (android_package_name settings); simpl in *; done. }
  apply isinstance_str_true in Hstr as [package Hpackage].
  rewrite Hpackage in *. exists package. split; [|split; [done|]].
  { simpl in Hpkg. apply negb_true_iff, String.eqb_neq in Hpkg. done. }
  apply optional_setting_Ret in H5 as [[_ ->]|(_ & _ & ->)];
    apply optional_setting_Ret in H6 as [[_ ->]|(_ & _ & ->)];
    rewrite ?lookup_insert_ne by done; apply lookup_insert_eq.
Qed.

(** X17: the parameters returned hold the URL under [continueUrl], a URL for
    which [urlparse] finds a host; each optional setting that was given is
    of its type (a bool or a string) and is stored unchanged under its key,
    each one left [None] is absent; and there is no other key. *)
Theorem encode_action_code_settings_parameters
    (settings : ActionCodeSettings) (parameters : dict) :
  let given (of_type : pyval → bool) (value : pyval) (stored : option pyval) :=
    if is_none value then stored = None
    else of_type value = true ∧ stored = Some value in
  encode_action_code_settings py_str urlparse_netloc settings = Ret parameters →
  parameters !! "continueUrl" = Some (url settings)
  ∧ (∃ netloc, urlparse_netloc (url settings) = Ret netloc ∧ py_bool netloc = true)
  ∧ given isinstance_bool (handle_code_in_app settings)
      (parameters !! "canHandleCodeInApp")
  ∧ given isinstance_str (dynamic_link_domain settings)
      (parameters !! "dynamicLinkDomain")
  ∧ given isinstance_str (ios_bundle_id settings) (parameters !! "iOSBundleId")
  ∧ given isinstance_str (android_package_name settings)
      (parameters !! "androidPackageName")
  ∧ given isinstance_str (android_minimum_version settings)
      (parameters !! "androidMinimumVersion")
  ∧ given isinstance_bool (android_install_app settings)
      (parameters !! "androidInstallApp")
  ∧ ∀ k : string,
      k ∉ ["continueUrl"; "canHandleCodeInApp"; "dynamicLinkDomain"; "iOSBundleId";
           "androidPackageName"; "androidMinimumVersion"; "androidInstallApp"]%string →
      parameters !! k = None.
Proof.
  intros given
    (netloc & p1 & p2 & p3 & p4 & p5 & _ & Hnet & Hhost & H1 & H2 & H3 & _
     & H4 & H5 & H6)%encode_action_code_settings_Ret.
  subst given. cbv beta.
  apply optional_setting_lookup in H1 as [L1 T1], H2 as [L2 T2], H3 as [L3 T3],
    H4 as [L4 T4], H5 as [L5 T5], H6 as [L6 T6].
  split; [by rewrite L6, L5, L4, L3, L2, L1|].
  split; [by eauto|].
  split; [rewrite L6, L5, L4, L3, L2, L1; simpl;
          by destruct (is_none (handle_code_in_app settings)); auto|].
  split; [rewrite L6, L5, L4, L3, L2; simpl;
          by destruct (is_none (dynamic_link_domain settings)); rewrite ?L1; auto|].
  split; [rewrite L6, L5, L4, L3; simpl;
          by destruct (is_none (ios_bundle_id settings)); rewrite ?L2, ?L1; auto|].
  split; [rewrite L6, L5, L4; simpl;
          by destruct (is_none (android_package_name settings));
            rewrite ?L3, ?L2, ?L1; auto|].
  split; [rewrite L6, L5; simpl;
          by destruct (is_none (android_minimum_version settings));
            rewrite ?L4, ?L3, ?L2, ?L1; auto|].
  split; [rewrite L6; simpl;
          by destruct (is_none (android_install_app settings));
            rewrite ?L5, ?L4, ?L3, ?L2, ?L1; auto|].
  intros k Hk. repeat (apply not_elem_of_cons in Hk as [? Hk]).
  rewrite L6, L5, L4, L3, L2, L1.
  rewrite !bool_decide_eq_false_2 by done. simpl.
  rewrite lookup_insert_ne by done. apply lookup_empty.
Qed.
End ActionCodeSettings.

(** ** The validators on concrete values *)

(** X13 (witness): two certificates. *)
Lemma x509_certificates_round_trip_witness :
  _auth_providers._validate_x509_certificates
    (PList [PStr "MIICertificateOne"; PStr "MIICertificateTwo"])
  = Ret (PList [PDict {[ "x509Certificate" := PStr "MIICertificateOne" ]};
                PDict {[ "x509Certificate" := PStr "MIICertificateTwo" ]}])
  ∧ _auth_providers.x509_certificates
      {| _auth_providers._data :=
           {[ "name" := PStr "projects/demo/inboundSamlConfigs/saml.acme";
              "idpConfig" :=
                PDict {[ "idpEntityId" := PStr "acme";
                         "idpCertificates" :=
                           PList [PDict {[ "x509Certificate" := PStr "MIICertificateOne" ]};
                                  PDict {[ "x509Certificate" := PStr "MIICertificateTwo" ]}] ]} ]} |}
    = Ret (PList [PStr "MIICertificateOne"; PStr "MIICertificateTwo"]).
Proof.
  split; [reflexivity|].
  refine (x509_certificates_round_trip
            (PList [PStr "MIICertificateOne"; PStr "MIICertificateTwo"])
            _ _
            {[ "idpEntityId" := PStr "acme";
               "idpCertificates" :=
                 PList [PDict {[ "x509Certificate" := PStr "MIICertificateOne" ]};
                        PDict {[ "x509Certificate" := PStr "MIICertificateTwo" ]}] ]}
            _ _ _); vm_compute; reflexivity.
Defined.

(** X14 (witness): the name of an OIDC provider config. *)
Lemma provider_id_is_last_segment_witness :
  _auth_providers.provider_id
    {| _auth_providers._data :=
         {[ "name" := PStr "projects/demo/oauthIdpConfigs/oidc.acme" ]} |}
  = Ret "oidc.acme"%string
  ∧ ∃ id,
      _auth_providers.provider_id
        {| _auth_providers._data :=
             {[ "name" := PStr "projects/demo/oauthIdpConfigs/oidc.acme" ]} |}
      = Ret id
      ∧ ("/"%char ∉ list_ascii_of_string id)
      ∧ ("projects/demo/oauthIdpConfigs/oidc.acme"%string = id
         ∨ ∃ pre, "projects/demo/oauthIdpConfigs/oidc.acme"%string
                  = pre +:+ String "/"%char id).
Proof.
  split; [vm_compute; reflexivity|].
  refine (provider_id_is_last_segment _ _ _). vm_compute; reflexivity.
Defined.

(** X15 (witness): a URL without a host, and a number in place of a flag. *)
Lemma encode_action_code_settings_raises_ValueError_witness :
  let no_host :=
    {| _user_mgt.url := PStr "finish";
       _user_mgt.handle_code_in_app := PNone;
       _user_mgt.dynamic_link_domain := PNone;
       _user_mgt.ios_bundle_id := PNone;
       _user_mgt.android_package_name := PNone;
       _user_mgt.android_install_app := PNone;
       _user_mgt.android_minimum_version := PNone |} in
  let bad_flag :=
    {| _user_mgt.url := PStr "https://example.com/finish";
       _user_mgt.handle_code_in_app := PInt 0;
       _user_mgt.dynamic_link_domain := PNone;
       _user_mgt.ios_bundle_id := PNone;
       _user_mgt.android_package_name := PNone;
       _user_mgt.android_install_app := PNone;
       _user_mgt.android_minimum_version := PNone |} in
  _user_mgt.encode_action_code_settings Fake.str _user_mgt.example_netloc no_host
  = Raise (ValueError ("Malformed dynamic action links url: " +:+ dq +:+ "finish"
                       +:+ dq +:+ "."))
  ∧ _user_mgt.encode_action_code_settings Fake.str _user_mgt.example_netloc bad_flag
    = Raise (ValueError "Invalid value provided for handle_code_in_app: 0")
  ∧ (∃ msg,
       ValueError ("Malformed dynamic action links url: " +:+ dq +:+ "finish"
                   +:+ dq +:+ ".")
       = ValueError msg)
  ∧ (∃ msg,
       ValueError "Invalid value provided for handle_code_in_app: 0"
       = ValueError msg).
Proof.
  intros no_host bad_flag.
  assert (_user_mgt.encode_action_code_settings Fake.str _user_mgt.example_netloc
            no_host
          = Raise (ValueError ("Malformed dynamic action links url: " +:+ dq
                               +:+ "finish" +:+ dq +:+ "."))) as H1
    by (vm_compute; reflexivity).
  assert (_user_mgt.encode_action_code_settings Fake.str _user_mgt.example_netloc
            bad_flag
          = Raise (ValueError "Invalid value provided for handle_code_in_app: 0"))
    as H2 by (vm_compute; reflexivity).
  split; [exact H1|]. split; [exact H2|]. split.
  - exact (encode_action_code_settings_raises_ValueError
             Fake.str _user_mgt.example_netloc no_host _ H1).
  - exact (encode_action_code_settings_raises_ValueError
             Fake.str _user_mgt.example_netloc bad_flag _ H2).
Defined.

(** X16 (witness): the settings of the examples ask to install the app. *)
Lemma encode_action_code_settings_android_package_witness :
  ∃ package,
    package ≠ EmptyString
    ∧ _user_mgt.android_package_name _user_mgt.example_settings = PStr package
    ∧ ({[ "continueUrl" := PStr "https://example.com/finish";
          "canHandleCodeInApp" := PBool true;
          "androidPackageName" := PStr "com.example.app";
          "androidInstallApp" := PBool true ]} : dict)
        !! "androidPackageName" = Some (PStr package).
Proof.
  refine (encode_action_code_settings_android_package
            Fake.str _user_mgt.example_netloc _user_mgt.example_settings _ _ _).
  - vm_compute; reflexivity.
  - left. reflexivity.
Defined.

(** X17 (witness): the parameters of the settings of the examples. *)
Lemma encode_action_code_settings_parameters_witness :
  _user_mgt.encode_action_code_settings Fake.str _user_mgt.example_netloc
    _user_mgt.example_settings
  = Ret {[ "continueUrl" := PStr "https://example.com/finish";
           "canHandleCodeInApp" := PBool true;
           "androidPackageName" := PStr "com.example.app";
           "androidInstallApp" := PBool true ]}
  ∧ ∀ k : string,
      k ∉ ["continueUrl"; "canHandleCodeInApp"; "dynamicLinkDomain"; "iOSBundleId";
           "androidPackageName"; "androidMinimumVersion"; "androidInstallApp"]%string →
      ({[ "continueUrl" := PStr "https://example.com/finish";
          "canHandleCodeInApp" := PBool true;
          "androidPackageName" := PStr "com.example.app";
          "androidInstallApp" := PBool true ]} : dict) !! k = None.
Proof.
  assert (_user_mgt.encode_action_code_settings Fake.str _user_mgt.example_netloc
            _user_mgt.example_settings
          = Ret {[ "continueUrl" := PStr "https://example.com/finish";
                   "canHandleCodeInApp" := PBool true;
                   "androidPackageName" := PStr "com.example.app";
                   "androidInstallApp" := PBool true ]}) as Hrun
    by (vm_compute; reflexivity).
  split; [exact Hrun|].
  exact (proj2 (proj2 (proj2 (proj2 (proj2 (proj2 (proj2 (proj2
           (encode_action_code_settings_parameters Fake.str
              _user_mgt.example_netloc _user_mgt.example_settings _ Hrun))))))))).
Defined.

(** * Listing provider configs and users *)

Lemma listing_arguments_valid_true (limit : Z) (page_token max_results : pyval) :
  listing_arguments_valid limit page_token max_results = true →
  negb (is_none page_token)
  && (negb (isinstance_str page_token) || negb (py_bool page_token)) = false
  ∧ isinstance_int max_results = true
  ∧ (int_value max_results <? 1)%Z || (int_value max_results >? limit)%Z = false
  ∧ py_bool page_token = negb (is_none page_token).
Proof.
  unfold listing_arguments_valid.
  intros [[[Htok Hint]%andb_true_iff Hlo%Z.leb_le]%andb_true_iff Hhi%Z.leb_le]%andb_true_iff.
  repeat split.
  - destruct (is_none page_token); [done|]. simpl in *.
    apply andb_true_iff in Htok as [-> ->]. done.
  - done.
  - apply orb_false_iff. split; [apply Z.ltb_ge; lia|].
    rewrite Z.gtb_ltb. apply Z.ltb_ge. lia.
  - destruct page_token; simpl in *; try done.
Qed.

Lemma listing_arguments_valid_false (limit : Z) (page_token max_results : pyval) :
  listing_arguments_valid limit page_token max_results = false →
  negb (is_none page_token)
  && (negb (isinstance_str page_token) || negb (py_bool page_token)) = true
  ∨ isinstance_int max_results = false
  ∨ (int_value max_results <? 1)%Z || (int_value max_results >? limit)%Z = true.
Proof.
  unfold listing_arguments_valid. intros Hbad.
  destruct (is_none page_token || isinstance_str page_token && py_bool page_token)
    eqn:Htok; simpl in Hbad.
  2:{ left. destruct (is_none page_token); [done|]. simpl in *.
      by destruct (isinstance_str page_token), (py_bool page_token). }
  destruct (isinstance_int max_results); simpl in Hbad; [|by right; left].
  right. right. apply orb_true_iff. rewrite Z.gtb_ltb, !Z.ltb_lt.
  apply andb_false_iff in Hbad as [Hlo%Z.leb_gt|Hhi%Z.leb_gt]; lia.
Qed.

Section Listing.
Context {W R : Type} `{backend : !AuthBackend W R}.
Variable py_str : pyval → string.

Lemma fetch_provider_configs_valid (self : _auth_providers.ProviderConfigClient)
    (path : string) (page_token max_results : pyval) :
  listing_arguments_valid 100 page_token max_results = true →
  _auth_providers._fetch_provider_configs py_str self path page_token max_results
  = _auth_providers._make_request self "get" path
      {[ "params" := PStr (listing_params py_str page_token max_results) ]}.
Proof.
  intros (Htok & Hint & Hrange & Hbool)%listing_arguments_valid_true.
  unfold _auth_providers._fetch_provider_configs, listing_params.
  rewrite Htok, Hint. cbn [negb].
  change _auth_providers.MAX_LIST_CONFIGS_RESULTS with 100%Z.
  rewrite Hrange, Hbool. by destruct (is_none page_token).
Qed.

Lemma fetch_provider_configs_invalid (self : _auth_providers.ProviderConfigClient)
    (path : string) (page_token max_results : pyval) :
  listing_arguments_valid 100 page_token max_results = false →
  ∃ msg,
    _auth_providers._fetch_provider_configs py_str self path page_token max_results
    = raise_ValueError msg.
Proof.
  intros Hbad%listing_arguments_valid_false.
  unfold _auth_providers._fetch_provider_configs.
  destruct (negb (is_none page_token) && _) eqn:Htok; [eauto|].
  destruct (isinstance_int max_results) eqn:Hint; cbn [negb]; [|eauto].
  change _auth_providers.MAX_LIST_CONFIGS_RESULTS with 100%Z.
  destruct ((int_value max_results <? 1)%Z || (int_value max_results >? 100)%Z)
    eqn:Hrange; [eauto|].
  by destruct Hbad as [?|[?|?]].
Qed.

(** X18: [_fetch_provider_configs] sends a request only for valid arguments:
    a page token that is [None] or a non-empty string, and a [max_results]
    that is an [int] between 1 and 100.  Then it sends exactly one [GET] to
    the base URL followed by the path, with [pageSize] and, when a token was
    given, [pageToken] in the query; otherwise it raises [ValueError] and
    sends nothing. *)
Theorem fetch_provider_configs_sends_valid_requests_only
    (self : _auth_providers.ProviderConfigClient) (path : string)
    (page_token max_results : pyval) (w : W) (log : list request) :
  let run :=
    _auth_providers._fetch_provider_configs py_str self path page_token
      max_results (w, log) in
  if listing_arguments_valid 100 page_token max_results then
    run.2.2
    = log ++ [{| method := "get";
                 request_url := _auth_providers.base_url self +:+ path;
                 kwargs :=
                   {[ "params" := PStr (listing_params py_str page_token max_results) ]} |}]
  else ∃ msg, run = (Err (PyExn (ValueError msg)), (w, log)).
Proof.
  intros run. subst run.
  destruct (listing_arguments_valid 100 page_token max_results) eqn:Hvalid.
  - rewrite (fetch_provider_configs_valid _ _ _ _ Hvalid).
    unfold _auth_providers._make_request.
    destruct (body w _) as [[b|[]] w']; reflexivity.
  - destruct (fetch_provider_configs_invalid self path _ _ Hvalid) as [msg ->].
    by exists msg.
Qed.

(** A listing that returned a page had valid arguments. *)
Lemma list_oidc_provider_configs_Ok (self : _auth_providers.ProviderConfigClient)
    (page_token max_results : pyval) (st st' : W * list request)
    (page : _auth_providers.ListProviderConfigsPage W) :
  _auth_providers.list_oidc_provider_configs py_str self page_token max_results st
  = (Ok page, st') →
  listing_arguments_valid 100 page_token max_results = true
  ∧ _auth_providers._download page
    = _auth_providers._fetch_oidc_provider_configs py_str self
  ∧ _auth_providers._max_results page = max_results.
Proof.
  unfold _auth_providers.list_oidc_provider_configs,
    _auth_providers.ListProviderConfigsPage_init,
    _auth_providers._fetch_oidc_provider_configs, mbind, HM_bind, mret, HM_ret.
  destruct (listing_arguments_valid 100 page_token max_results) eqn:Hvalid.
  - destruct (_auth_providers._fetch_provider_configs _ _ _ _ _ _) as [[b|r] st1];
      [|done].
    intros [= <- <-]. done.
  - destruct (fetch_provider_configs_invalid self "/oauthIdpConfigs" _ _ Hvalid)
      as [msg ->].
    done.
Qed.

(** X19: following the pages of a listing of OIDC provider configs.  When
    the response has no [nextPageToken], or a false one such as the empty
    string, [get_next_page] returns [None] and sends nothing.  When the token
    is a non-empty string, it sends exactly one request, to the same URL,
    with the page size the listing was started with and that token.  When
    the token is true but not a string, it raises [ValueError] and sends
    nothing. *)
Theorem get_next_page_follows_the_token
    (self : _auth_providers.ProviderConfigClient)
    (page_token max_results : pyval) (st st' : W * list request)
    (page : _auth_providers.ListProviderConfigsPage W) :
  _auth_providers.list_oidc_provider_configs py_str self page_token max_results st
  = (Ok page, st') →
  let token := _auth_providers.next_page_token page in
  let next := _auth_providers.get_next_page page st' in
  if py_bool token then
    if isinstance_str token then
      next.2.2
      = st'.2 ++ [{| method := "get";
                     request_url :=
                       _auth_providers.base_url self +:+ "/oauthIdpConfigs";
                     kwargs :=
                       {[ "params" :=
                            PStr (("pageSize=" +:+ py_str max_results)
                                  +:+ "&pageToken=" +:+ py_str token) ]} |}]
    else
      next = (Err (PyExn (ValueError "Page token must be a non-empty string.")), st')
  else next = (Ok None, st').
Proof.
  intros (Hvalid & Hdl & Hmax)%list_oidc_provider_configs_Ok token next.
  subst next. unfold _auth_providers.get_next_page, _auth_providers.has_next_page.
  fold token. destruct (py_bool token) eqn:Htrue; [|done].
  unfold _auth_providers.ListProviderConfigsPage_init, mbind, HM_bind, mret, HM_ret.
  rewrite Hdl, Hmax. unfold _auth_providers._fetch_oidc_provider_configs.
  destruct (isinstance_str token) eqn:Hstr.
  - assert (listing_arguments_valid 100 token max_results = true) as Hnext.
    { unfold listing_arguments_valid in *. rewrite Hstr, Htrue.
      rewrite orb_true_r. simpl.
      by destruct (is_none page_token || _) in Hvalid. }
    rewrite (fetch_provider_configs_valid _ _ _ _ Hnext).
    unfold listing_params.
    assert (is_none token = false) as -> by by destruct token.
    destruct st' as [w' log']. unfold _auth_providers._make_request.
    destruct (body w' _) as [[b|[]] w'']; reflexivity.
  - unfold _auth_providers._fetch_provider_configs.
    assert (is_none token = false) as -> by by destruct token.
    rewrite Hstr. reflexivity.
Qed.

Lemma list_users_valid (self : _user_mgt.UserManager)
    (page_token max_results : pyval) :
  listing_arguments_valid 1000 page_token max_results = true →
  _user_mgt.list_users self page_token max_results
  = (answer ← _user_mgt._make_request self "get" "/accounts:batchGet"
                {[ "params" :=
                     PDict (if is_none page_token
                            then {[ "maxResults" := max_results ]}
                            else <["nextPageToken" := page_token]>
                                   {[ "maxResults" := max_results ]}) ]};
     mret answer.1).
Proof.
  intros (Htok & Hint & Hrange & Hbool)%listing_arguments_valid_true.
  unfold _user_mgt.list_users.
  rewrite Htok, Hint. cbn [negb].
  change _user_mgt.MAX_LIST_USERS_RESULTS with 1000%Z.
  rewrite Hrange, Hbool. by destruct (is_none page_token).
Qed.

Lemma list_users_invalid (self : _user_mgt.UserManager)
    (page_token max_results : pyval) :
  listing_arguments_valid 1000 page_token max_results = false →
  ∃ msg, _user_mgt.list_users self page_token max_results = raise_ValueError msg.
Proof.
  intros Hbad%listing_arguments_valid_false.
  unfold _user_mgt.list_users.
  destruct (negb (is_none page_token) && _) eqn:Htok; [eauto|].
  destruct (isinstance_int max_results) eqn:Hint; cbn [negb]; [|eauto].
  change _user_mgt.MAX_LIST_USERS_RESULTS with 1000%Z.
  destruct ((int_value max_results <? 1)%Z || (int_value max_results >? 1000)%Z)
    eqn:Hrange; [eauto|].
  by destruct Hbad as [?|[?|?]].
Qed.

(** X20: [list_users] sends a request only for valid arguments: a page token
    that is [None] or a non-empty string, and a [max_results] that is an
    [int] between 1 and 1000, the bound included.  Then it sends exactly one
    [GET] to [/accounts:batchGet] under the base URL, whose parameters are
    [maxResults] and, when a token was given, [nextPageToken]; otherwise it
    raises [ValueError] and sends nothing. *)
Theorem list_users_sends_valid_requests_only (self : _user_mgt.UserManager)
    (page_token max_results : pyval) (w : W) (log : list request) :
  let run := _user_mgt.list_users self page_token max_results (w, log) in
  if listing_arguments_valid 1000 page_token max_results then
    run.2.2
    = log ++ [{| method := "get";
                 request_url := _user_mgt.base_url self +:+ "/accounts:batchGet";
                 kwargs :=
                   {[ "params" :=
                        PDict (if is_none page_token
                               then {[ "maxResults" := max_results ]}
                               else <["nextPageToken" := page_token]>
                                      {[ "maxResults" := max_results ]}) ]} |}]
  else ∃ msg, run = (Err (PyExn (ValueError msg)), (w, log)).
Proof.
  intros run. subst run.
  destruct (listing_arguments_valid 1000 page_token max_results) eqn:Hvalid.
  - rewrite (list_users_valid _ _ _ Hvalid).
    unfold mbind, HM_bind, _user_mgt._make_request.
    destruct (body_and_response w _) as [[b|[]] w']; reflexivity.
  - destruct (list_users_invalid self _ _ Hvalid) as [msg ->].
    by exists msg.
Qed.
End Listing.

(** X21: a [UserRecord] exists only for a dict with a true [localId], and
    its [uid] is that value: it is never [None] and never empty, and reading
    it does not raise. *)
Theorem user_record_uid_is_never_empty (py_str : pyval → string) (data : pyval)
    (user : _user_mgt.UserRecord) :
  _user_mgt.UserRecord_init py_str data = Ret user →
  ∃ id,
    _user_mgt.uid user = Ret id
    ∧ py_bool id = true
    ∧ id ≠ PNone
    ∧ id ≠ PStr EmptyString
    ∧ data = PDict (_user_mgt._data user).
Proof.
  unfold _user_mgt.UserRecord_init, _user_mgt.uid, _AppCheckService.getitem, dict_get.
  destruct data as [| | | | | |d]; try done.
  destruct (d !! "localId") as [id|] eqn:Hid; simpl; [|done].
  destruct (py_bool id) eqn:Htrue; simpl; [|done].
  intros [= <-]. simpl. rewrite Hid. exists id.
  repeat split; try done; intros ->; done.
Qed.

(** X19 (witness): a first page of 50 configs that names a second page. *)
Lemma get_next_page_follows_the_token_witness :
  let first :=
    {| method := "get";
       request_url :=
         "https://identitytoolkit.googleapis.com/v2/projects/demo/oauthIdpConfigs";
       kwargs := {[ "params" := PStr "pageSize=50" ]} |} in
  let second :=
    {| method := "get";
       request_url :=
         "https://identitytoolkit.googleapis.com/v2/projects/demo/oauthIdpConfigs";
       kwargs := {[ "params" := PStr "pageSize=50&pageToken=page-2" ]} |} in
  let page :=
    {| _auth_providers._download :=
         _auth_providers._fetch_oidc_provider_configs
           (backend := Server.backend (Ok Server.first_page))
           Server.str Server.providers;
       _auth_providers._max_results := PInt 50;
       _auth_providers._current := Server.first_page |} in
  _auth_providers.list_oidc_provider_configs
    (backend := Server.backend (Ok Server.first_page))
    Server.str Server.providers PNone (PInt 50) (0, [])
  = (Ok page, (1, [first]))
  ∧ (_auth_providers.get_next_page page (1, [first])).2.2 = [first; second].
Proof.
  intros first second page.
  assert (_auth_providers.list_oidc_provider_configs
            (backend := Server.backend (Ok Server.first_page))
            Server.str Server.providers PNone (PInt 50) (0, [])
          = (Ok page, (1, [first]))) as Hfirst by (vm_compute; reflexivity).
  split; [exact Hfirst|].
  exact (get_next_page_follows_the_token
           (backend := Server.backend (Ok Server.first_page))
           Server.str Server.providers PNone (PInt 50) (0, []) (1, [first])
           page Hfirst).
Defined.

(** X21 (witness): a user as the server returns it. *)
Lemma user_record_uid_is_never_empty_witness :
  ∃ id,
    _user_mgt.uid
      {| _user_mgt._data :=
           {[ "localId" := PStr "u-123"; "email" := PStr "user@example.com" ]} |}
    = Ret id
    ∧ py_bool id = true
    ∧ id ≠ PNone
    ∧ id ≠ PStr EmptyString
    ∧ PDict {[ "localId" := PStr "u-123"; "email" := PStr "user@example.com" ]}
      = PDict {[ "localId" := PStr "u-123"; "email" := PStr "user@example.com" ]}.
Proof.
  refine (user_record_uid_is_never_empty Fake.str
            (PDict {[ "localId" := PStr "u-123"; "email" := PStr "user@example.com" ]})
            {| _user_mgt._data :=
                 {[ "localId" := PStr "u-123"; "email" := PStr "user@example.com" ]} |}
            _).
  vm_compute; reflexivity.
Defined.

(** * Reading and deleting one provider config *)

Lemma prefix_oidc_saml (s : string) :
  String.prefix "oidc." s && String.prefix "saml." s = false.
Proof.
  destruct (String.prefix "oidc." s) eqn:Hoidc; [|done].
  destruct (String.prefix "saml." s) eqn:Hsaml; [|done].
  apply prefix_append in Hoidc as [rest ->].
  apply prefix_append in Hsaml as [rest' Heq].
  cbv [String.append] in Heq. discriminate.
Qed.

Section ProviderRequests.
Context {W R : Type} `{backend : !AuthBackend W R}.
Variable py_str : pyval → string.
Import _auth_providers.

Lemma validate_oidc_cases (v : pyval) :
  if is_provider_id "oidc." v then _validate_oidc_provider_id py_str v = Ret v
  else ∃ msg, _validate_oidc_provider_id py_str v = Raise (ValueError msg).
Proof.
  unfold _validate_oidc_provider_id.
  destruct v; simpl; eauto.
  destruct (String.prefix "oidc." s); simpl; eauto.
Qed.

Lemma validate_saml_cases (v : pyval) :
  if is_provider_id "saml." v then _validate_saml_provider_id py_str v = Ret v
  else ∃ msg, _validate_saml_provider_id py_str v = Raise (ValueError msg).
Proof.
  unfold _validate_saml_provider_id.
  destruct v; simpl; eauto.
  destruct (String.prefix "saml." s); simpl; eauto.
Qed.

Lemma make_request_log (self : ProviderConfigClient) (method path : string)
    (kwargs : dict) (w : W) (log : list request) :
  (_make_request self method path kwargs (w, log)).2.2
  = log ++ [{| method := method; request_url := base_url self +:+ path;
               kwargs := kwargs |}].
Proof.
  unfold _make_request. destruct (body w _) as [[b|[]] w']; reflexivity.
Qed.

(** X22: the methods that read or delete one provider config send a request
    only for an id of their kind.  For a string that starts with [oidc.],
    [get_oidc_provider_config] and [delete_oidc_provider_config] send exactly
    one request, a [GET] or a [DELETE] of the config of that id; for any
    other value they raise [ValueError] and send nothing.  The SAML methods
    do the same for [saml.], and no id is of both kinds: a SAML config can
    not be read or deleted through the OIDC methods, nor the reverse. *)
Theorem provider_config_requests_need_an_id_of_their_kind
    (self : ProviderConfigClient) (provider_id : pyval) (w : W)
    (log : list request) :
  let sent (method path : string) :=
    log ++ [{| method := method;
               request_url := base_url self +:+ path +:+ py_str provider_id;
               kwargs := ∅ |}] in
  (if is_provider_id "oidc." provider_id then
     (get_oidc_provider_config py_str self provider_id (w, log)).2.2
     = sent "get" "/oauthIdpConfigs/"
     ∧ (delete_oidc_provider_config py_str self provider_id (w, log)).2.2
       = sent "delete" "/oauthIdpConfigs/"
   else
     ∃ msg,
       get_oidc_provider_config py_str self provider_id (w, log)
       = (Err (PyExn (ValueError msg)), (w, log))
       ∧ delete_oidc_provider_config py_str self provider_id (w, log)
         = (Err (PyExn (ValueError msg)), (w, log)))
  ∧ (if is_provider_id "saml." provider_id then
       (get_saml_provider_config py_str self provider_id (w, log)).2.2
       = sent "get" "/inboundSamlConfigs/"
       ∧ (delete_saml_provider_config py_str self provider_id (w, log)).2.2
         = sent "delete" "/inboundSamlConfigs/"
     else
       ∃ msg,
         get_saml_provider_config py_str self provider_id (w, log)
         = (Err (PyExn (ValueError msg)), (w, log))
         ∧ delete_saml_provider_config py_str self provider_id (w, log)
           = (Err (PyExn (ValueError msg)), (w, log)))
  ∧ is_provider_id "oidc." provider_id && is_provider_id "saml." provider_id = false.
Proof.
  intros sent. subst sent. cbv beta.
  split; [|split].
  - pose proof (validate_oidc_cases provider_id) as Hid.
    unfold get_oidc_provider_config, delete_oidc_provider_config,
      mbind, HM_bind, mret, HM_ret, of_outcome.
    destruct (is_provider_id "oidc." provider_id).
    + rewrite Hid. split.
      * rewrite <- (make_request_log self "get" _ ∅ w log).
        by destruct (_make_request _ _ _ _ _) as [[b|r] st'].
      * rewrite <- (make_request_log self "delete" _ ∅ w log).
        by destruct (_make_request _ _ _ _ _) as [[b|r] st'].
    + destruct Hid as [msg ->]. by exists msg.
  - pose proof (validate_saml_cases provider_id) as Hid.
    unfold get_saml_provider_config, delete_saml_provider_config,
      mbind, HM_bind, mret, HM_ret, of_outcome.
    destruct (is_provider_id "saml." provider_id).
    + rewrite Hid. split.
      * rewrite <- (make_request_log self "get" _ ∅ w log).
        by destruct (_make_request _ _ _ _ _) as [[b|r] st'].
      * rewrite <- (make_request_log self "delete" _ ∅ w log).
        by destruct (_make_request _ _ _ _ _) as [[b|r] st'].
    + destruct Hid as [msg ->]. by exists msg.
  - destruct provider_id; try done. apply prefix_oidc_saml.
Qed.
End ProviderRequests.

(** * The URL of a provider *)

Section Urls.
Variable py_str : pyval → string.
Variable urlparse_netloc : pyval → outcome pyval.
Import _auth_providers.

(** X23: [_validate_url] returns its argument, and only when it is a
    non-empty string in which [urlparse] finds a host.  Everything else is
    reported as a [ValueError]: whatever [urlparse] raises is replaced by the
    one that names the malformed URL. *)
Theorem validate_url_accepts_urls_with_a_host (url : pyval) (label : string) :
  (∀ out,
     _validate_url py_str urlparse_netloc url label = Ret out
     ↔ out = url
       ∧ ∃ s netloc,
           url = PStr s ∧ s ≠ EmptyString
           ∧ urlparse_netloc url = Ret netloc ∧ py_bool netloc = true)
  ∧ (∀ e,
       _validate_url py_str urlparse_netloc url label = Raise e →
       ∃ msg, e = ValueError msg)
  ∧ (∀ e,
       isinstance_str url && py_bool url = true →
       urlparse_netloc url = Raise e →
       _validate_url py_str urlparse_netloc url label
       = Raise (ValueError ("Malformed " +:+ label +:+ ": " +:+ dq +:+ py_str url
                            +:+ dq +:+ "."))).
Proof.
  unfold _validate_url, mbind, outcome_bind.
  split; [|split].
  - intros out. split.
    + destruct url as [| | | |s| |]; simpl; try done.
      destruct (String.eqb s EmptyString) eqn:Hs; simpl; [done|].
      apply String.eqb_neq in Hs.
      destruct (urlparse_netloc (PStr s)) as [netloc|e] eqn:Hnet; [|done].
      destruct (py_bool netloc) eqn:Hhost; simpl; [|done].
      intros [= <-]. split; [done|]. by exists s, netloc.
    + intros (-> & s & netloc & -> & Hs & Hnet & Hhost). simpl.
      apply String.eqb_neq in Hs. rewrite Hs, Hnet, Hhost. reflexivity.
  - intros e.
    destruct (negb (isinstance_str url) || negb (py_bool url));
      [intros [= <-]; eauto|].
    destruct (urlparse_netloc url) as [netloc|e0]; [|intros [= <-]; eauto].
    destruct (py_bool netloc); simpl; [done|intros [= <-]; eauto].
  - intros e [Hstr Htrue]%andb_true_iff Hnet.
    by rewrite Hstr, Htrue, Hnet.
Qed.
End Urls.

(** X23 (on an example): an [https] URL is returned, a bare word is
    malformed. *)
Lemma validate_url_example :
  _auth_providers._validate_url Fake.str _user_mgt.example_netloc
    (PStr "https://accounts.example.com/oidc") "issuer"
  = Ret (PStr "https://accounts.example.com/oidc")
  ∧ _auth_providers._validate_url Fake.str _user_mgt.example_netloc
      (PStr "accounts") "issuer"
    = Raise (ValueError ("Malformed issuer: " +:+ dq +:+ "accounts" +:+ dq +:+ ".")).
Proof. split; vm_compute; reflexivity. Qed.
